(** * busca-cnpj-e-salva: fetch, normalise and export one company record

    A shallow embedding of [main.py]: the three functions
    [obter_dados_empresa_por_cnpj], [tratar_dados_aninhados] and
    [salvar_dados_empresa_excel], the module body that chains them, and
    the fragment of Python they rely on (JSON-shaped values, insertion
    ordered dictionaries, exceptions, [str], [join], f-strings).

    Conventions.
    - A Python [str] is modelled by its UTF-8 encoding, a [string] of
      bytes; [bytes] are a [string] as well.
    - A [dict] is an association list: the order of the pairs is the
      insertion order of the keys.
    - The mapping handed to the normaliser is mutated in place, so it lives
      in a store and the functions receive its location.
    - Exceptions are values of [exn]; a computation that raises keeps the
      effects it had before raising.
    - What lies outside the program is a parameter: the answer of the
      server, [json.loads], and the spreadsheet library behind [to_excel],
      which may raise and decides what is left in the file. *)

From stdpp Require Import gmap strings list fin_maps pretty.
From Stdlib Require Import ZArith String Ascii.

Open Scope string_scope.

Set Warnings "-register-all".

(** ** Python values *)

(** What [json.loads] can produce. A float is carried by its [repr] text:
    no arithmetic is ever done on it, it is only printed. *)
Inductive value : Type :=
| VNone
| VBool (b : bool)
| VInt (n : Z)
| VFloat (repr : string)
| VStr (s : string)
| VList (xs : list value)
| VDict (kvs : list (string * value)).

Definition dict : Type := list (string * value).

(** The exception classes the program can meet. [ReferenceError] stands for
    a location with no object behind it, which a Python program cannot
    build. [ValueError], [OSError] and [IllegalCharacterError] are what the
    spreadsheet libraries raise (no engine for the file type, a path that
    cannot be written, a cell with a control character); the other
    constructors are the built-in classes of that name. *)
Inductive exn : Type :=
| KeyError (key : string)
| TypeError
| AttributeError
| UnicodeDecodeError
| JSONDecodeError (msg : string)
| ReferenceError
| ValueError
| OSError
| IllegalCharacterError.

(** Outcome of evaluating an expression or running a statement. *)
Inductive outcome (A : Type) : Type :=
| Ret (a : A)
| Raise (e : exn).
Arguments Ret {A} a.
Arguments Raise {A} e.

Definition obind {A B} (m : outcome A) (k : A -> outcome B) : outcome B :=
  match m with
  | Ret a => k a
  | Raise e => Raise e
  end.

Notation "x <-? m ;; k" := (obind m (fun x => k))
  (at level 20, m at level 99, k at level 200, format "x  <-?  m  ;;  '/' k").

(** [[f(x) for x in xs]]: elements are evaluated left to right and the
    first exception ends the comprehension. *)
Fixpoint comprehension {A B} (f : A -> outcome B) (xs : list A) : outcome (list B) :=
  match xs with
  | [] => Ret []
  | x :: xs' =>
      y <-? f x ;;
      ys <-? comprehension f xs' ;;
      Ret (y :: ys)
  end.

(** ** Dictionaries *)

Module Dict.

(** [d.get(k)] as an option. *)
Fixpoint lookup (k : string) (d : dict) : option value :=
  match d with
  | [] => None
  | (k', v) :: d' => if String.eqb k' k then Some v else lookup k d'
  end.

(** [k in d] *)
Definition contains (k : string) (d : dict) : bool :=
  match lookup k d with Some _ => true | None => false end.

(** [d.get(k, default)] *)
Definition get (k : string) (default : value) (d : dict) : value :=
  match lookup k d with Some v => v | None => default end.

(** [d[k]] *)
Definition getitem (k : string) (d : dict) : outcome value :=
  match lookup k d with Some v => Ret v | None => Raise (KeyError k) end.

(** [d[k] = v]: an existing key keeps its position, a new key goes last. *)
Fixpoint setitem (k : string) (v : value) (d : dict) : dict :=
  match d with
  | [] => [(k, v)]
  | (k', v') :: d' =>
      if String.eqb k' k then (k, v) :: d' else (k', v') :: setitem k v d'
  end.

(** [list(d.keys())] and [list(d.values())], in iteration order. *)
Definition keys (d : dict) : list string := map fst d.
Definition values (d : dict) : list value := map snd d.

(** [bool(d)] *)
Definition truthy (d : dict) : bool :=
  match d with [] => false | _ :: _ => true end.

End Dict.

(** ** Built-ins on values *)

Definition quote1 : string := "'".
Definition quote2 : string := String "034"%char EmptyString.
Definition backslash : string := String "092"%char EmptyString.

Definition hex_digit (n : N) : ascii :=
  if (n <? 10)%N then ascii_of_N (48 + n) else ascii_of_N (87 + n).

(** Is there a single (resp. a double) quote in the string? *)
Fixpoint has_char (c : ascii) (s : string) : bool :=
  match s with
  | EmptyString => false
  | String c' s' => Ascii.eqb c c' || has_char c s'
  end.

(** Escaping done by [repr] on a [str] delimited by the quote [q].
    Exact on ASCII. Bytes above 127 belong to the encoding of a non-ASCII
    character and are kept, which is what [repr] does for the printable
    ones only: Python escapes the others (U+00A0 comes out as a backslash,
    x, a, 0), by a table of the Unicode database that is not modelled.
    What is stated about [str] of a list or of a mapping is therefore
    stated for ASCII text, see [ascii_value]. *)
Fixpoint repr_escape (q : ascii) (s : string) : string :=
  match s with
  | EmptyString => EmptyString
  | String c s' =>
      let n := N_of_ascii c in
      (if Ascii.eqb c "092"%char then backslash ++ backslash
       else if Ascii.eqb c q then backslash ++ String q EmptyString
       else if (n =? 9)%N then backslash ++ "t"
       else if (n =? 10)%N then backslash ++ "n"
       else if (n =? 13)%N then backslash ++ "r"
       else if ((n <? 32) || (n =? 127))%N then
         backslash ++ "x" ++ String (hex_digit (n / 16)) (String (hex_digit (n mod 16)) EmptyString)
       else String c EmptyString) ++ repr_escape q s'
  end.

(** [repr(s)] for a [str]: single quotes unless the text has a single quote
    and no double quote. *)
Definition repr_str (s : string) : string :=
  if has_char "'"%char s && negb (has_char "034"%char s)
  then quote2 ++ repr_escape "034"%char s ++ quote2
  else quote1 ++ repr_escape "'"%char s ++ quote1.

(** [repr(v)] *)
Fixpoint py_repr (v : value) : string :=
  match v with
  | VNone => "None"
  | VBool true => "True"
  | VBool false => "False"
  | VInt n => pretty n
  | VFloat r => r
  | VStr s => repr_str s
  | VList xs => "[" ++ String.concat ", " (map py_repr xs) ++ "]"
  | VDict kvs =>
      "{" ++ String.concat ", "
               (map (fun kv => repr_str (fst kv) ++ ": " ++ py_repr (snd kv)) kvs)
          ++ "}"
  end.

(** [str(v)], which is also what an f-string field [{v}] inserts. On a
    [str] it is the text itself, whatever its characters. *)
Definition py_str (v : value) : string :=
  match v with
  | VStr s => s
  | _ => py_repr v
  end.

(** [v == s] for a [str] literal [s]: only an equal [str] is equal to it. *)
Definition eq_str (v : value) (s : string) : bool :=
  match v with
  | VStr s' => String.eqb s' s
  | _ => false
  end.

(** The pieces a [for] clause gets from a [str]: its characters, one by
    one. On the byte model a character outside ASCII comes as several
    pieces; every piece is a [str] all the same, and the program does
    nothing with a piece but subscript it. *)
Fixpoint chars (s : string) : list value :=
  match s with
  | EmptyString => []
  | String c s' => VStr (String c EmptyString) :: chars s'
  end.

(** [iter(v)]: what a [for] clause runs over. A [dict] yields its keys. *)
Definition py_iter (v : value) : outcome (list value) :=
  match v with
  | VList xs => Ret xs
  | VDict kvs => Ret (map VStr (Dict.keys kvs))
  | VStr s => Ret (chars s)
  | VNone | VBool _ | VInt _ | VFloat _ => Raise TypeError
  end.

(** [v[k]] with a [str] key [k]: only a [dict] can be indexed by a [str]. *)
Definition subscript (v : value) (k : string) : outcome value :=
  match v with
  | VDict kvs => Dict.getitem k kvs
  | _ => Raise TypeError
  end.

(** [v.get(k, default)]: a method of [dict] only. *)
Definition method_get (v : value) (k : string) (default : value) : outcome value :=
  match v with
  | VDict kvs => Ret (Dict.get k default kvs)
  | _ => Raise AttributeError
  end.

(** [sep.join(items)]: every item must be a [str]. *)
Definition as_str (v : value) : outcome string :=
  match v with
  | VStr s => Ret s
  | _ => Raise TypeError
  end.

Definition str_join (sep : string) (items : list value) : outcome string :=
  ss <-? comprehension as_str items ;;
  Ret (String.concat sep ss).

(** [dados.decode("utf-8")]: the bytes must be well-formed UTF-8 (shortest
    form, no surrogates, at most U+10FFFF); the text is then the same bytes. *)
Definition in_range (lo hi : N) (c : ascii) : bool :=
  ((lo <=? N_of_ascii c) && (N_of_ascii c <=? hi))%N.

Fixpoint utf8_valid (s : string) : bool :=
  match s with
  | EmptyString => true
  | String b0 r0 =>
      if in_range 0 127 b0 then utf8_valid r0
      else
        match r0 with
        | EmptyString => false
        | String b1 r1 =>
            if in_range 194 223 b0 then in_range 128 191 b1 && utf8_valid r1
            else
              match r1 with
              | EmptyString => false
              | String b2 r2 =>
                  if in_range 224 239 b0 then
                    (if in_range 224 224 b0 then in_range 160 191 b1
                     else if in_range 237 237 b0 then in_range 128 159 b1
                     else in_range 128 191 b1)
                    && in_range 128 191 b2 && utf8_valid r2
                  else
                    match r2 with
                    | EmptyString => false
                    | String b3 r3 =>
                        in_range 240 244 b0
                        && (if in_range 240 240 b0 then in_range 144 191 b1
                            else if in_range 244 244 b0 then in_range 128 143 b1
                            else in_range 128 191 b1)
                        && in_range 128 191 b2 && in_range 128 191 b3
                        && utf8_valid r3
                    end
              end
        end
  end.

Definition decode_utf8 (dados : string) : outcome string :=
  if utf8_valid dados then Ret dados else Raise UnicodeDecodeError.

(** ** The world: objects, files, and what was done to the outside *)

Abbreviation loc := positive.

(** A worksheet: rows of cells. *)
Abbreviation sheet := (list (list value)).

(** Calls that cross the boundary of the program, in the order made. *)
Inductive event : Type :=
| EHTTPSConnection (host : string)
| ERequest (method url : string)
| EGetResponse
| ERead
| EClose
| EJsonLoads (text : string)
| EPrint (line : string).

Record world : Type := World {
  store : gmap loc dict;       (* the mappings that are passed by reference *)
  files : gmap string sheet;   (* spreadsheet files by path *)
  trace : list event           (* network calls, parser calls, console lines *)
}.

Definition set_store (f : gmap loc dict -> gmap loc dict) (w : world) : world :=
  {| store := f (store w); files := files w; trace := trace w |}.
Definition set_files (f : gmap string sheet -> gmap string sheet) (w : world) : world :=
  {| store := store w; files := f (files w); trace := trace w |}.
Definition log (e : event) (w : world) : world :=
  {| store := store w; files := files w; trace := (trace w ++ [e])%list |}.

(** ** Statements: state and exceptions *)

Definition M (A : Type) : Type := world -> outcome A * world.

Definition ret {A} (a : A) : M A := fun w => (Ret a, w).
Definition raise {A} (e : exn) : M A := fun w => (Raise e, w).
Definition lift {A} (o : outcome A) : M A := fun w => (o, w).

Definition bind {A B} (m : M A) (k : A -> M B) : M B :=
  fun w =>
    match m w with
    | (Ret a, w') => k a w'
    | (Raise e, w') => (Raise e, w')
    end.

Notation "x <- m ;; k" := (bind m (fun x => k))
  (at level 20, m at level 99, k at level 200, format "x  <-  m  ;;  '/' k").

(** [try: body except <classes>: handler]. The handler is partial: it is
    defined on the exception classes the [except] clause names. *)
Definition try_except {A} (body : M A) (handler : exn -> option (M A)) : M A :=
  fun w =>
    match body w with
    | (Ret a, w') => (Ret a, w')
    | (Raise e, w') =>
        match handler e with
        | Some h => h w'
        | None => (Raise e, w')
        end
    end.

Definition emit (e : event) : M unit := fun w => (Ret tt, log e w).

(** [print(line)] *)
Definition print (line : string) : M unit := emit (EPrint line).

(** The mapping behind a reference. *)
Definition deref (l : loc) : M dict :=
  fun w =>
    match store w !! l with
    | Some d => (Ret d, w)
    | None => (Raise ReferenceError, w)
    end.

(** A new mapping object. *)
Definition alloc (d : dict) : M loc :=
  fun w => let l := fresh (dom (store w)) in (Ret l, set_store (insert l d) w).

(** [k in dados], [dados[k]], [dados[k] = v], [dados.get(k)] through a reference. *)
Definition contains (dados : loc) (k : string) : M bool :=
  d <- deref dados ;; ret (Dict.contains k d).

Definition getitem (dados : loc) (k : string) : M value :=
  d <- deref dados ;; lift (Dict.getitem k d).

Definition setitem (dados : loc) (k : string) (v : value) : M unit :=
  d <- deref dados ;;
  fun w => (Ret tt, set_store (insert dados (Dict.setitem k v d)) w).

Definition get (dados : loc) (k : string) : M value :=
  d <- deref dados ;; ret (Dict.get k VNone d).

(** [if b: body] *)
Definition when (b : bool) (body : M unit) : M unit :=
  if b then body else ret tt.

(** ** The normaliser *)

(** ["; ".join([ativ['text'] for ativ in seq])] *)
Definition join_text (seq : value) : outcome string :=
  itens <-? py_iter seq ;;
  textos <-? comprehension (fun ativ => subscript ativ "text") itens ;;
  str_join "; " textos.

(** [f"{q['nome']} ({q.get('qual', '')})"] *)
Definition format_socio (q : value) : outcome value :=
  nome <-? subscript q "nome" ;;
  qual <-? method_get q "qual" (VStr "") ;;
  Ret (VStr (py_str nome ++ " (" ++ py_str qual ++ ")")).

(** ["; ".join([f"..." for q in seq])] *)
Definition join_qsa (seq : value) : outcome string :=
  itens <-? py_iter seq ;;
  socios <-? comprehension format_socio itens ;;
  str_join "; " socios.

Definition tratar_dados_aninhados (dados : loc) : M loc :=
  b1 <- contains dados "atividade_principal" ;;
  _ <- when b1
         (v <- getitem dados "atividade_principal" ;;
          s <- lift (join_text v) ;;
          setitem dados "atividade_principal" (VStr s)) ;;
  b2 <- contains dados "atividades_secundarias" ;;
  _ <- when b2
         (v <- getitem dados "atividades_secundarias" ;;
          s <- lift (join_text v) ;;
          setitem dados "atividades_secundarias" (VStr s)) ;;
  b3 <- contains dados "qsa" ;;
  _ <- when b3
         (v <- getitem dados "qsa" ;;
          s <- lift (join_qsa v) ;;
          setitem dados "qsa" (VStr s)) ;;
  b4 <- contains dados "billing" ;;
  _ <- when b4
         (v <- getitem dados "billing" ;;
          setitem dados "billing" (VStr (py_str v))) ;;
  b5 <- contains dados "extra" ;;
  _ <- when b5
         (v <- getitem dados "extra" ;;
          setitem dados "extra" (VStr (py_str v))) ;;
  ret dados.

(** ** http.client and json *)

(** What the server answers: the status line's code and the body bytes. *)
Record HTTPResponse : Type := { status : Z; body : string }.

Record HTTPSConnection_t : Type := { conn_host : string }.

(** A request that was sent and whose answer is awaited. *)
Record pending : Type := { p_host : string; p_method : string; p_url : string }.

Section Fetcher.

(** The remote service: the answer to a request made to a host. The
    fetcher is modelled on the runs in which the exchange takes place:
    the request is accepted by [http.client] and the server answers.
    A request that [http.client] refuses (a path with a blank or a control
    character) or that cannot reach the host raises in [request] or
    [getresponse]; those runs are outside this model, and what is stated
    about the fetcher is stated of a run in which [servidor] answered. *)
Variable servidor : string -> string -> string -> HTTPResponse.

(** [json.loads]: the parsed value, or [JSONDecodeError] with its
    diagnostic when the text is not a JSON document. *)
Variable json_loads : string -> outcome value.

Definition HTTPSConnection (host : string) : M HTTPSConnection_t :=
  _ <- emit (EHTTPSConnection host) ;; ret {| conn_host := host |}.

Definition request (c : HTTPSConnection_t) (method url : string) : M pending :=
  _ <- emit (ERequest method url) ;;
  ret {| p_host := conn_host c; p_method := method; p_url := url |}.

Definition getresponse (p : pending) : M HTTPResponse :=
  _ <- emit EGetResponse ;; ret (servidor (p_host p) (p_method p) (p_url p)).

Definition read (r : HTTPResponse) : M string :=
  _ <- emit ERead ;; ret (body r).

Definition close (c : HTTPSConnection_t) : M unit := emit EClose.

Definition loads (text : string) : M value :=
  _ <- emit (EJsonLoads text) ;; lift (json_loads text).

(** The two-key record returned in place of company data. *)
Definition ErrorResult (message : string) : value :=
  VDict [("status", VStr "ERROR"); ("message", VStr message)].

Definition obter_dados_empresa_por_cnpj (cnpj : string) : M value :=
  conexao <- HTTPSConnection "www.receitaws.com.br" ;;
  enviado <- request conexao "GET" ("/v1/cnpj/" ++ cnpj) ;;
  resposta <- getresponse enviado ;;
  _ <- print ("Status da Resposta HTTP: " ++ pretty (status resposta)) ;;
  if negb (status resposta =? 200)%Z then
    ret (ErrorResult ("Resposta HTTP com status " ++ pretty (status resposta)))
  else
    dados <- read resposta ;;
    _ <- close conexao ;;
    try_except
      (texto <- lift (decode_utf8 dados) ;;
       empresa <- loads texto ;;
       _ <- print ("Empresa decodificada: " ++ py_str empresa) ;;
       ret empresa)
      (fun e =>
         match e with
         | JSONDecodeError msg =>
             Some (_ <- print ("Erro na decodificação do JSON: " ++ msg) ;;
                   ret (ErrorResult "Erro na decodificação do JSON."))
         | _ => None
         end).

End Fetcher.

(** ** pandas *)

(** A table: column labels and rows of cells. *)
Record DataFrame_t : Type := { columns : list string; rows : list (list value) }.

(** [pd.DataFrame([registro])]: one row, one column per key of the
    mapping, in the mapping's iteration order. *)
Definition DataFrame (registro : dict) : DataFrame_t :=
  {| columns := Dict.keys registro; rows := [Dict.values registro] |}.

(** The rows of a table written as it is, cell for cell: the labels,
    then the data rows; with [index] each row is preceded by its row
    number (and the label row by an empty cell). *)
Definition worksheet (df : DataFrame_t) (index : bool) : sheet :=
  ((if index then [VNone] else []) ++ map VStr (columns df))%list
  :: imap (fun i r => ((if index then [VInt (Z.of_nat i)] else []) ++ r)%list) (rows df).

(** What a call of [to_excel] leaves at its path: nothing new (it raised
    before opening the file), or a file with the given rows (complete, or
    cut short when it raised while writing). *)
Inductive file_effect : Type :=
| Untouched
| Written (content : sheet).

Definition apply_effect (path : string) (eff : file_effect)
  (fs : gmap string sheet) : gmap string sheet :=
  match eff with
  | Untouched => fs
  | Written content => <[path := content]> fs
  end.

(** A spreadsheet library that writes every table as it is and never
    raises: what [to_excel] does on cells that need no conversion, at a
    path it can write. *)
Definition escritor_ideal (df : DataFrame_t) (path : string) (index : bool)
  : outcome unit * file_effect :=
  (Ret tt, Written (worksheet df index)).


(** ** The exporter *)

Definition nome_arquivo_padrao : string := "dados_empresa.xlsx".

Section Exporter.

(** The spreadsheet libraries behind [to_excel] (pandas and its engine):
    for a table, a path and the [index] flag, whether the call returns or
    raises, and what it leaves at the path. They decide by the extension
    of the path, by the characters and the types of the cells, and may
    convert a cell on the way (a nested value to its text, a large integer
    to a float). *)
Variable excel_writer : DataFrame_t -> string -> bool -> outcome unit * file_effect.

(** [df.to_excel(path, index=index)] *)
Definition to_excel (df : DataFrame_t) (path : string) (index : bool) : M unit :=
  fun w =>
    let '(o, eff) := excel_writer df path index in
    (o, set_files (apply_effect path eff) w).

Definition salvar_dados_empresa_excel (dados_empresa : loc) (nome_arquivo : string) : M unit :=
  d <- deref dados_empresa ;;
  guarda <- (if Dict.truthy d then
               status_ <- get dados_empresa "status" ;;
               ret (negb (eq_str status_ "ERROR"))
             else ret false) ;;
  if guarda then
    dados_empresa <- tratar_dados_aninhados dados_empresa ;;
    registro <- deref dados_empresa ;;
    _ <- to_excel (DataFrame registro) nome_arquivo false ;;
    print ("Dados da empresa salvos com sucesso no arquivo " ++ nome_arquivo)
  else
    message <- get dados_empresa "message" ;;
    print ("Não há dados válidos para salvar. Mensagem de erro: " ++ py_str message).

End Exporter.

(** ** The module body *)

Definition cnpj_exemplo : string := "06947283000160".

Section Script.

Variable servidor : string -> string -> string -> HTTPResponse.
Variable json_loads : string -> outcome value.
Variable excel_writer : DataFrame_t -> string -> bool -> outcome unit * file_effect.

(** The result of the fetcher is kept in a module variable and handed to
    the exporter. Only a mapping has the [get] method the exporter calls
    first on either side of its test: any other JSON value makes that
    call raise [AttributeError]. *)
Definition main : M unit :=
  dados_empresa <- obter_dados_empresa_por_cnpj servidor json_loads cnpj_exemplo ;;
  match dados_empresa with
  | VDict kvs =>
      l <- alloc kvs ;;
      salvar_dados_empresa_excel excel_writer l nome_arquivo_padrao
  | _ => raise AttributeError
  end.

End Script.

(** ** The normaliser seen as a function on the mapping

    The five blocks of [tratar_dados_aninhados] have one shape: when the
    key is present, compute a string from its value and bind the key to
    it. Run on the mapping itself, they give the outcome of the call and
    the mapping left behind, also when a block raises. *)

Definition known_fields : list (string * (value -> outcome string)) :=
  [ ("atividade_principal", join_text);
    ("atividades_secundarias", join_text);
    ("qsa", join_qsa);
    ("billing", fun v => Ret (py_str v));
    ("extra", fun v => Ret (py_str v)) ].

Definition known_keys : list string :=
  ["atividade_principal"; "atividades_secundarias"; "qsa"; "billing"; "extra"].

Fixpoint rewrite_fields (fs : list (string * (value -> outcome string))) (d : dict)
  : outcome unit * dict :=
  match fs with
  | [] => (Ret tt, d)
  | (k, f) :: fs' =>
      match Dict.lookup k d with
      | None => rewrite_fields fs' d
      | Some v =>
          match f v with
          | Ret s => rewrite_fields fs' (Dict.setitem k (VStr s) d)
          | Raise e => (Raise e, d)
          end
      end
  end.

Definition normalise (d : dict) : outcome unit * dict :=
  rewrite_fields known_fields d.

(** The world in which the object at [l] is [d]. *)
Definition with_object (l : loc) (d : dict) (w : world) : world :=
  set_store (insert l d) w.

(** ** Shapes the claims speak of *)

(** The text of an activity entry: a record with a [text] field holding a
    string. *)
Definition text_of (x : value) : option string :=
  match x with
  | VDict kvs =>
      match Dict.lookup "text" kvs with
      | Some (VStr t) => Some t
      | _ => None
      end
  | _ => None
  end.

(** The rendering of a partner entry: a record with a [nome] field and
    possibly a [qual] field. *)
Definition socio_of (q : value) : option string :=
  match q with
  | VDict kvs =>
      match Dict.lookup "nome" kvs with
      | Some nome =>
          Some (py_str nome ++ " (" ++ py_str (Dict.get "qual" (VStr "") kvs) ++ ")")
      | None => None
      end
  | _ => None
  end.

(** A record entry that has no field [k]. *)
Definition lacks (k : string) (x : value) : bool :=
  match x with
  | VDict kvs => negb (Dict.contains k kvs)
  | _ => false
  end.

(** Does the block for key [k], which computes the new string with [f],
    go through on [d]? It does when the key is absent or [f] does not
    raise on its value. *)
Definition block_ok (k : string) (f : value -> outcome string) (d : dict) : bool :=
  match Dict.lookup k d with
  | None => true
  | Some v => match f v with Ret _ => true | Raise _ => false end
  end.

(** The test of the exporter, on the mapping. *)
Definition export_guard (d : dict) : bool :=
  Dict.truthy d && negb (eq_str (Dict.get "status" VNone d) "ERROR").

(** The two console lines of the exporter. *)
Definition aviso_salvo (nome_arquivo : string) : event :=
  EPrint ("Dados da empresa salvos com sucesso no arquivo " ++ nome_arquivo).
Definition aviso_ignorado (d : dict) : event :=
  EPrint ("Não há dados válidos para salvar. Mensagem de erro: "
            ++ py_str (Dict.get "message" VNone d)).

(** The calls the fetcher makes up to its test of the status code. *)
Definition chamadas_iniciais (cnpj : string) (code : Z) : list event :=
  [ EHTTPSConnection "www.receitaws.com.br";
    ERequest "GET" ("/v1/cnpj/" ++ cnpj);
    EGetResponse;
    EPrint ("Status da Resposta HTTP: " ++ pretty code) ].

(** The world after some more calls. *)
Definition after (calls : list event) (w : world) : world :=
  {| store := store w; files := files w; trace := (trace w ++ calls)%list |}.

(** A world with one object, at location 1, no file and nothing done yet. *)
Definition mundo (d : dict) : world :=
  {| store := {[ 1%positive := d ]}; files := ∅; trace := [] |}.

(** A server that gives the same answer to every request. *)
Definition sempre (code : Z) (bytes : string) : string -> string -> string -> HTTPResponse :=
  fun _ _ _ => {| status := code; body := bytes |}.

(** A body that is not UTF-8: the single byte 0xFF. *)
Definition corpo_invalido : string := String (ascii_of_nat 255) EmptyString.

(** Is the key absent from [d], or bound to the empty string? *)
Definition joined_empty (k : string) (d : dict) : bool :=
  match Dict.lookup k d with
  | None => true
  | Some (VStr EmptyString) => true
  | Some _ => false
  end.

(** Can a [for] clause run over the value at least once, or not at all:
    a list is what the normaliser expects, an empty [str] or an empty
    mapping yields no item. *)
Definition list_or_empty (v : value) : bool :=
  match v with
  | VList _ => true
  | VStr EmptyString => true
  | VDict [] => true
  | _ => false
  end.

(** Is the text made of ASCII characters only? *)
Fixpoint ascii_text (s : string) : bool :=
  match s with
  | EmptyString => true
  | String c s' => (N_of_ascii c <? 128)%N && ascii_text s'
  end.

(** Is every text in the value (keys included) ASCII? On such values
    [py_str] is Python's [str]. *)
Fixpoint ascii_value (v : value) : bool :=
  match v with
  | VNone | VBool _ | VInt _ => true
  | VFloat r => ascii_text r
  | VStr s => ascii_text s
  | VList xs => forallb ascii_value xs
  | VDict kvs => forallb (fun kv => ascii_text (fst kv) && ascii_value (snd kv)) kvs
  end.

(** The outcome of the exporter once the normaliser has returned and left
    [d1] in the world [w1]: what the spreadsheet library answers for the
    one-row table of [d1], with the confirmation line when it returns. *)
Definition escrita (excel_writer : DataFrame_t -> string -> bool -> outcome unit * file_effect)
  (d1 : dict) (nome_arquivo : string) (w1 : world) : outcome unit * world :=
  match excel_writer (DataFrame d1) nome_arquivo false with
  | (Ret _, eff) =>
      (Ret tt, after [aviso_salvo nome_arquivo] (set_files (apply_effect nome_arquivo eff) w1))
  | (Raise e, eff) => (Raise e, set_files (apply_effect nome_arquivo eff) w1)
  end.

(** * Properties *)

(** ** Small runs *)

Example py_str_examples :
  py_str (VStr "ACME") = "ACME"
  ∧ py_str VNone = "None"
  ∧ py_str (VInt (-7)) = "-7"
  ∧ py_str (VDict [("free", VBool true); ("database", VList [VInt 1; VStr "a'b"])])
    = "{'free': True, 'database': [1, " ++ quote2 ++ "a'b" ++ quote2 ++ "]}".
Proof. repeat split; vm_compute; reflexivity. Qed.

Example join_text_examples :
  join_text (VList [VDict [("text", VStr "A")]; VDict [("text", VStr "B")]]) = Ret "A; B"
  ∧ join_text (VList []) = Ret ""
  ∧ join_text (VStr "") = Ret ""
  ∧ join_text (VList [VDict [("code", VStr "1")]]) = Raise (KeyError "text")
  ∧ join_text (VList [VDict [("text", VInt 1)]]) = Raise TypeError
  ∧ join_text (VInt 5) = Raise TypeError
  ∧ join_text (VDict [("text", VStr "A")]) = Raise TypeError.
Proof. repeat split; vm_compute; reflexivity. Qed.

Example join_qsa_examples :
  join_qsa (VList [VDict [("nome", VStr "X"); ("qual", VStr "Socio")];
                   VDict [("nome", VStr "Y")]]) = Ret "X (Socio); Y ()"
  ∧ join_qsa (VList [VDict [("nome", VInt 3); ("qual", VNone)]]) = Ret "3 (None)"
  ∧ join_qsa (VList [VDict [("qual", VStr "Socio")]]) = Raise (KeyError "nome")
  ∧ join_qsa (VList [VStr "X"]) = Raise TypeError.
Proof. repeat split; vm_compute; reflexivity. Qed.

Example utf8_valid_examples :
  utf8_valid "decodificação" = true
  ∧ utf8_valid corpo_invalido = false
  ∧ utf8_valid (String (ascii_of_nat 195) EmptyString) = false
  ∧ utf8_valid (String (ascii_of_nat 237) (String (ascii_of_nat 160) (String (ascii_of_nat 128) EmptyString))) = false.
Proof. repeat split; vm_compute; reflexivity. Qed.

Example setitem_examples :
  Dict.setitem "b" (VInt 9) [("a", VInt 1); ("b", VInt 2); ("c", VInt 3)]
  = [("a", VInt 1); ("b", VInt 9); ("c", VInt 3)]
  ∧ Dict.setitem "z" (VInt 9) [("a", VInt 1)] = [("a", VInt 1); ("z", VInt 9)].
Proof. split; reflexivity. Qed.

(** ** Dictionaries *)

Lemma lookup_setitem_eq k v d : Dict.lookup k (Dict.setitem k v d) = Some v.
Proof.
  induction d as [|[k' v'] d IH]; simpl.
  - by rewrite String.eqb_refl.
  - destruct (String.eqb k' k) eqn:E; simpl.
    + by rewrite String.eqb_refl.
    + by rewrite E.
Qed.

Lemma lookup_setitem_ne k k' v d :
  k ≠ k' → Dict.lookup k' (Dict.setitem k v d) = Dict.lookup k' d.
Proof.
  intros Hne. induction d as [|[k0 v0] d IH]; simpl.
  - destruct (String.eqb k k') eqn:E; [|done].
    apply String.eqb_eq in E. congruence.
  - destruct (String.eqb k0 k) eqn:E; simpl.
    + apply String.eqb_eq in E. subst k0.
      destruct (String.eqb k k') eqn:E'; [|done].
      apply String.eqb_eq in E'. congruence.
    + by rewrite IH.
Qed.

Lemma keys_setitem k v d :
  Dict.lookup k d ≠ None → Dict.keys (Dict.setitem k v d) = Dict.keys d.
Proof.
  unfold Dict.keys.
  induction d as [|[k0 v0] d IH]; simpl; [done|].
  destruct (String.eqb k0 k) eqn:E; simpl.
  - apply String.eqb_eq in E. by subst.
  - intros H. by rewrite IH.
Qed.

Lemma lookup_None_keys k d : Dict.lookup k d = None ↔ k ∉ Dict.keys d.
Proof.
  induction d as [|[k0 v0] d IH]; simpl.
  - split; [intros _; apply not_elem_of_nil | done].
  - destruct (String.eqb k0 k) eqn:E.
    + apply String.eqb_eq in E. subst. split; [done|].
      intros H. exfalso. apply H. apply list_elem_of_here.
    + apply String.eqb_neq in E. rewrite IH. unfold Dict.keys. simpl.
      rewrite not_elem_of_cons. split; [intros ?; split; [congruence|done] | by intros [_ ?]].
Qed.

(** ** The monad on a world that holds the object *)

Lemma with_object_id w l d : store w !! l = Some d → with_object l d w = w.
Proof.
  intros H. destruct w as [st fi tr]. unfold with_object, set_store. simpl in *.
  f_equal. by apply insert_id.
Qed.

Lemma with_object_twice l d d' w :
  set_store (insert l d') (with_object l d w) = with_object l d' w.
Proof.
  unfold with_object, set_store. simpl. f_equal. apply insert_insert_eq.
Qed.

Lemma store_with_object l d w : store (with_object l d w) !! l = Some d.
Proof. unfold with_object, set_store. simpl. apply lookup_insert_eq. Qed.

Lemma deref_with_object l d w :
  deref l (with_object l d w) = (Ret d, with_object l d w).
Proof. unfold deref. by rewrite store_with_object. Qed.

(** One block of the normaliser, followed by the rest of the body. *)
Lemma block_run {A} l k (f : value → outcome string) (rest : M A) d w :
  (b <- contains l k ;;
   _ <- when b (v <- getitem l k ;; s <- lift (f v) ;; setitem l k (VStr s)) ;;
   rest) (with_object l d w)
  = match Dict.lookup k d with
    | None => rest (with_object l d w)
    | Some v =>
        match f v with
        | Ret s => rest (with_object l (Dict.setitem k (VStr s) d) w)
        | Raise e => (Raise e, with_object l d w)
        end
    end.
Proof.
  unfold bind at 1. unfold contains. unfold bind at 1.
  rewrite deref_with_object. unfold ret at 1. unfold Dict.contains.
  destruct (Dict.lookup k d) as [v|] eqn:Hk; simpl.
  - unfold bind, getitem, bind, lift, Dict.getitem.
    rewrite deref_with_object, Hk.
    destruct (f v) as [s|e]; [|done].
    unfold setitem, bind. rewrite deref_with_object.
    by rewrite with_object_twice.
  - done.
Qed.

(** The same for the two blocks that apply [str]. *)
Lemma block_str_run {A} l k (rest : M A) d w :
  (b <- contains l k ;;
   _ <- when b (v <- getitem l k ;; setitem l k (VStr (py_str v))) ;;
   rest) (with_object l d w)
  = match Dict.lookup k d with
    | None => rest (with_object l d w)
    | Some v => rest (with_object l (Dict.setitem k (VStr (py_str v)) d) w)
    end.
Proof.
  unfold bind at 1. unfold contains. unfold bind at 1.
  rewrite deref_with_object. unfold ret at 1. unfold Dict.contains.
  destruct (Dict.lookup k d) as [v|] eqn:Hk; simpl.
  - unfold bind, getitem, bind, lift, Dict.getitem.
    rewrite deref_with_object, Hk.
    unfold setitem, bind. rewrite deref_with_object.
    by rewrite with_object_twice.
  - done.
Qed.

(** The call and the function on the mapping agree: same outcome, and the
    object is left as [normalise] leaves the mapping. Nothing else in the
    world changes. *)
Lemma tratar_dados_aninhados_run l d w :
  store w !! l = Some d →
  tratar_dados_aninhados l w
  = (match (normalise d).1 with Ret _ => Ret l | Raise e => Raise e end,
     with_object l (normalise d).2 w).
Proof.
  intros Hd. rewrite <- (with_object_id w l d Hd) at 1.
  unfold tratar_dados_aninhados, normalise, known_fields, rewrite_fields.
  rewrite block_run.
  destruct (Dict.lookup "atividade_principal" d) as [v1|];
    [destruct (join_text v1); [|done]|];
  rewrite block_run;
  (match goal with |- context [Dict.lookup "atividades_secundarias" ?x] =>
     destruct (Dict.lookup "atividades_secundarias" x) as [v2|] end;
    [destruct (join_text v2); [|done]|]);
  rewrite block_run;
  (match goal with |- context [Dict.lookup "qsa" ?x] =>
     destruct (Dict.lookup "qsa" x) as [v3|] end;
    [destruct (join_qsa v3); [|done]|]);
  rewrite block_str_run;
  (match goal with |- context [Dict.lookup "billing" ?x] =>
     destruct (Dict.lookup "billing" x) as [v4|] end);
  rewrite block_str_run;
  (match goal with |- context [Dict.lookup "extra" ?x] =>
     destruct (Dict.lookup "extra" x) as [v5|] end);
  done.
Qed.

(** ** The normaliser on the mapping *)

Lemma rewrite_fields_keys fs d : Dict.keys (rewrite_fields fs d).2 = Dict.keys d.
Proof.
  revert d. induction fs as [|[k f] fs IH]; intros d; simpl; [done|].
  destruct (Dict.lookup k d) as [v|] eqn:Hk; [|apply IH].
  destruct (f v) as [s|e]; [|done].
  rewrite IH. apply keys_setitem. by rewrite Hk.
Qed.

Lemma rewrite_fields_frame fs d k :
  k ∉ map fst fs → Dict.lookup k (rewrite_fields fs d).2 = Dict.lookup k d.
Proof.
  revert d. induction fs as [|[k0 f] fs IH]; intros d Hk; simpl; [done|].
  simpl in Hk. apply not_elem_of_cons in Hk as [Hne Hk].
  destruct (Dict.lookup k0 d) as [v|]; [|by apply IH].
  destruct (f v) as [s|e]; [|done].
  rewrite IH by done. by apply lookup_setitem_ne.
Qed.

Lemma rewrite_fields_absent fs d :
  (∀ k, k ∈ map fst fs → Dict.lookup k d = None) → rewrite_fields fs d = (Ret tt, d).
Proof.
  induction fs as [|[k f] fs IH]; intros H; simpl; [done|].
  rewrite (H k) by (simpl; apply list_elem_of_here).
  apply IH. intros k' Hk'. apply H. simpl. by apply list_elem_of_further.
Qed.

(** A block whose value cannot be converted makes the whole call raise,
    whatever the blocks before it do. *)
Lemma rewrite_fields_raises fs d k f v e :
  NoDup (map fst fs) → (k, f) ∈ fs → Dict.lookup k d = Some v → f v = Raise e →
  ∃ e', (rewrite_fields fs d).1 = Raise e'.
Proof.
  revert d. induction fs as [|[k0 f0] fs IH]; intros d Hnd Hin Hk Hf.
  { by apply elem_of_nil in Hin. }
  simpl in Hnd. apply NoDup_cons in Hnd as [Hk0 Hnd].
  apply elem_of_cons in Hin as [Heq|Hin]; simpl.
  - injection Heq as <- <-. rewrite Hk, Hf. by eexists.
  - assert (k0 ≠ k) as Hne.
    { intros ->. apply Hk0. apply list_elem_of_fmap. by exists (k, f). }
    destruct (Dict.lookup k0 d) as [v0|]; [|by apply IH].
    destruct (f0 v0) as [s|e0]; [|by eexists].
    apply IH; try done. by rewrite lookup_setitem_ne.
Qed.

Lemma rewrite_fields_cons k f fs d :
  rewrite_fields ((k, f) :: fs) d
  = match Dict.lookup k d with
    | None => rewrite_fields fs d
    | Some v =>
        match f v with
        | Ret s => rewrite_fields fs (Dict.setitem k (VStr s) d)
        | Raise e => (Raise e, d)
        end
    end.
Proof. reflexivity. Qed.

Lemma known_fields_keys : map fst known_fields = known_keys.
Proof. reflexivity. Qed.

Lemma known_keys_NoDup : NoDup known_keys.
Proof. compute_done. Qed.

Lemma normalise_field1 d v s :
  Dict.lookup "atividade_principal" d = Some v → join_text v = Ret s →
  Dict.lookup "atividade_principal" (normalise d).2 = Some (VStr s).
Proof.
  intros Hk Hs. unfold normalise, known_fields.
  rewrite rewrite_fields_cons, Hk, Hs.
  rewrite rewrite_fields_frame; [apply lookup_setitem_eq|].
  compute_done.
Qed.

Lemma normalise_field2 d v s :
  block_ok "atividade_principal" join_text d = true →
  Dict.lookup "atividades_secundarias" d = Some v → join_text v = Ret s →
  Dict.lookup "atividades_secundarias" (normalise d).2 = Some (VStr s).
Proof.
  unfold block_ok. intros H1 Hk Hs. unfold normalise, known_fields.
  rewrite rewrite_fields_cons.
  destruct (Dict.lookup "atividade_principal" d) as [v1|].
  - destruct (join_text v1) as [s1|]; [|done].
    rewrite rewrite_fields_cons, lookup_setitem_ne, Hk, Hs by done.
    rewrite rewrite_fields_frame; [apply lookup_setitem_eq|].
    compute_done.
  - rewrite rewrite_fields_cons, Hk, Hs.
    rewrite rewrite_fields_frame; [apply lookup_setitem_eq|].
    compute_done.
Qed.

Lemma normalise_field3 d v s :
  block_ok "atividade_principal" join_text d = true →
  block_ok "atividades_secundarias" join_text d = true →
  Dict.lookup "qsa" d = Some v → join_qsa v = Ret s →
  Dict.lookup "qsa" (normalise d).2 = Some (VStr s).
Proof.
  unfold block_ok. intros H1 H2 Hk Hs. unfold normalise, known_fields.
  rewrite rewrite_fields_cons.
  destruct (Dict.lookup "atividade_principal" d) as [v1|];
    [destruct (join_text v1) as [s1|]; [|done]|];
  rewrite rewrite_fields_cons, ?lookup_setitem_ne by done;
  (destruct (Dict.lookup "atividades_secundarias" d) as [v2|];
    [destruct (join_text v2) as [s2|]; [|done]|]);
  rewrite rewrite_fields_cons, ?lookup_setitem_ne by done; rewrite Hk, Hs;
  (rewrite rewrite_fields_frame; [apply lookup_setitem_eq|]);
  compute_done.
Qed.

(** ** Joining well-formed sequences *)

Lemma comprehension_as_str ts : comprehension as_str (map VStr ts) = Ret ts.
Proof. induction ts as [|t ts IH]; simpl; [done|]. by rewrite IH. Qed.

Lemma str_join_strings sep ts : str_join sep (map VStr ts) = Ret (String.concat sep ts).
Proof. unfold str_join. by rewrite comprehension_as_str. Qed.

Lemma join_text_list xs ts :
  Forall2 (λ x t, text_of x = Some t) xs ts →
  join_text (VList xs) = Ret (String.concat "; " ts).
Proof.
  intros H. unfold join_text. simpl.
  assert (comprehension (λ ativ, subscript ativ "text") xs = Ret (map VStr ts)) as ->.
  { induction H as [|x t xs ts Hx _ IH]; simpl; [done|].
    destruct x as [| | | | |?|kvs]; try done. simpl in *. unfold Dict.getitem.
    destruct (Dict.lookup "text" kvs) as [[| | | |t'| |]|]; try done.
    injection Hx as ->. simpl. by rewrite IH. }
  simpl. apply str_join_strings.
Qed.

Lemma format_socio_of q s : socio_of q = Some s → format_socio q = Ret (VStr s).
Proof.
  destruct q as [| | | | |?|kvs]; try done. unfold format_socio. simpl.
  unfold Dict.getitem.
  destruct (Dict.lookup "nome" kvs) as [nome|]; [|done].
  by intros [= <-].
Qed.

Lemma join_qsa_list qs ss :
  Forall2 (λ q s, socio_of q = Some s) qs ss →
  join_qsa (VList qs) = Ret (String.concat "; " ss).
Proof.
  intros H. unfold join_qsa. simpl.
  assert (comprehension format_socio qs = Ret (map VStr ss)) as ->.
  { induction H as [|q s qs ss Hq _ IH]; simpl; [done|].
    by rewrite (format_socio_of _ _ Hq), IH. }
  simpl. apply str_join_strings.
Qed.

(** An entry without the field ends the comprehension with an exception:
    [KeyError] at that entry, unless an earlier entry already raised. *)
Lemma comprehension_lacks (k : string) (g : value → outcome value) xs :
  (∀ x, lacks k x = true → ∃ e, g x = Raise e) →
  existsb (lacks k) xs = true → ∃ e, comprehension g xs = Raise e.
Proof.
  intros Hg. induction xs as [|x xs IH]; simpl; [done|].
  intros H. apply orb_true_iff in H as [H|H].
  - destruct (Hg x H) as [e ->]. by eexists.
  - destruct (g x); [|by eexists].
    destruct (IH H) as [e ->]. by eexists.
Qed.

Lemma subscript_lacks k x : lacks k x = true → subscript x k = Raise (KeyError k).
Proof.
  destruct x; try done. simpl. unfold Dict.contains, Dict.getitem.
  by destruct (Dict.lookup k kvs).
Qed.

Lemma join_text_lacks xs :
  existsb (lacks "text") xs = true → ∃ e, join_text (VList xs) = Raise e.
Proof.
  intros H. unfold join_text. simpl.
  destruct (comprehension_lacks "text" (λ ativ, subscript ativ "text") xs) as [e ->];
    [|done|by eexists].
  intros x Hx. rewrite subscript_lacks by done. by eexists.
Qed.

Lemma join_qsa_lacks qs :
  existsb (lacks "nome") qs = true → ∃ e, join_qsa (VList qs) = Raise e.
Proof.
  intros H. unfold join_qsa. simpl.
  destruct (comprehension_lacks "nome" format_socio qs) as [e ->];
    [|done|by eexists].
  intros x Hx. unfold format_socio. rewrite subscript_lacks by done. by eexists.
Qed.

Lemma block_ok_setitem k f k0 v0 d :
  k0 ≠ k → block_ok k f (Dict.setitem k0 v0 d) = block_ok k f d.
Proof. intros Hne. unfold block_ok. by rewrite lookup_setitem_ne. Qed.

Lemma block_ok_str k d : block_ok k (λ v, Ret (py_str v)) d = true.
Proof. unfold block_ok. by destruct (Dict.lookup k d). Qed.

(** When every block goes through, so does the whole sequence. *)
Lemma rewrite_fields_ok fs d :
  NoDup (map fst fs) →
  Forall (λ kf, block_ok kf.1 kf.2 d = true) fs →
  (rewrite_fields fs d).1 = Ret tt.
Proof.
  revert d. induction fs as [|[k f] fs IH]; intros d Hnd Hok; [done|].
  simpl in Hnd. apply NoDup_cons in Hnd as [Hk Hnd].
  apply Forall_cons in Hok as [Hhd Htl]. rewrite rewrite_fields_cons.
  unfold block_ok in Hhd. simpl in Hhd.
  destruct (Dict.lookup k d) as [v|]; [|by apply IH].
  destruct (f v) as [s|e]; [|done].
  apply IH; [done|].
  apply Forall_forall. intros [k' f'] Hin. simpl.
  rewrite block_ok_setitem.
  - rewrite Forall_forall in Htl. by apply (Htl (k', f')).
  - intros ->. apply Hk. apply list_elem_of_fmap. by exists (k', f').
Qed.

Lemma normalise_ok d :
  block_ok "atividade_principal" join_text d = true →
  block_ok "atividades_secundarias" join_text d = true →
  block_ok "qsa" join_qsa d = true →
  (normalise d).1 = Ret tt.
Proof.
  intros H1 H2 H3. apply rewrite_fields_ok; [apply known_keys_NoDup|].
  unfold known_fields. repeat (apply Forall_cons; split); simpl;
    auto using block_ok_str.
Qed.

Lemma block_ok_list (k : string) (f : value → outcome string) d v s :
  Dict.lookup k d = Some v → f v = Ret s → block_ok k f d = true.
Proof. intros Hk Hf. unfold block_ok. by rewrite Hk, Hf. Qed.

(** ** The exporter *)

Lemma export_guard_false d :
  export_guard d = false ↔ d = [] ∨ Dict.lookup "status" d = Some (VStr "ERROR").
Proof.
  unfold export_guard, Dict.get, eq_str. split.
  - intros H. destruct d as [|kv d]; [by left|]. right.
    change (Dict.truthy (kv :: d)) with true in H. rewrite andb_true_l in H.
    destruct (Dict.lookup "status" (kv :: d)) as [v|]; [|done].
    destruct v; try done.
    apply negb_false_iff, String.eqb_eq in H. by subst.
  - intros [->| ->]; [done|]. simpl. apply andb_false_r.
Qed.

Lemma export_guard_true d :
  export_guard d = true ↔ d ≠ [] ∧ Dict.lookup "status" d ≠ Some (VStr "ERROR").
Proof.
  destruct (export_guard d) eqn:E.
  - split; [intros _|done]. split; intros H.
    + assert (export_guard d = false) by (apply export_guard_false; by left).
      congruence.
    + assert (export_guard d = false) by (apply export_guard_false; by right).
      congruence.
  - apply export_guard_false in E. split; [done|]. intros [H1 H2]. by destruct E.
Qed.

Lemma deref_run l d w : store w !! l = Some d → deref l w = (Ret d, w).
Proof. intros H. unfold deref. by rewrite H. Qed.

Lemma get_run l k d w :
  store w !! l = Some d → get l k w = (Ret (Dict.get k VNone d), w).
Proof. intros H. unfold get, bind. by rewrite (deref_run l d w H). Qed.

Lemma salvar_dados_empresa_excel_run excel l nome_arquivo d w :
  store w !! l = Some d →
  salvar_dados_empresa_excel excel l nome_arquivo w
  = if export_guard d then
      match (normalise d).1 with
      | Ret _ => escrita excel (normalise d).2 nome_arquivo (with_object l (normalise d).2 w)
      | Raise e => (Raise e, with_object l (normalise d).2 w)
      end
    else (Ret tt, log (aviso_ignorado d) w).
Proof.
  intros Hd. unfold salvar_dados_empresa_excel, export_guard.
  unfold bind at 1. rewrite (deref_run l d w Hd).
  unfold bind at 1.
  destruct (Dict.truthy d) eqn:Ht.
  - unfold bind at 1. rewrite (get_run l "status" d w Hd). unfold ret at 1.
    rewrite andb_true_l.
    destruct (negb (eq_str (Dict.get "status" VNone d) "ERROR")).
    + unfold bind at 1. rewrite (tratar_dados_aninhados_run l d w Hd).
      destruct ((normalise d).1) as [[]|e]; [|done].
      unfold bind at 1. rewrite deref_with_object.
      unfold bind at 1, to_excel, escrita.
      by destruct (excel _ _ _) as [[[]|e] eff].
    + unfold bind at 1. by rewrite (get_run l "message" d w Hd).
  - unfold ret at 1. unfold bind at 1. by rewrite (get_run l "message" d w Hd).
Qed.

(** ** The fetcher *)

Lemma after_after cs cs' w : after cs' (after cs w) = after (cs ++ cs') w.
Proof. unfold after. simpl. by rewrite app_assoc. Qed.

Lemma log_after e w : log e w = after [e] w.
Proof. reflexivity. Qed.

(** Any status but 200: the error record, after the four initial calls. *)
Lemma obter_dados_status_erro servidor json_loads cnpj w :
  let resposta := servidor "www.receitaws.com.br" "GET" ("/v1/cnpj/" ++ cnpj) in
  status resposta ≠ 200%Z →
  obter_dados_empresa_por_cnpj servidor json_loads cnpj w
  = (Ret (ErrorResult ("Resposta HTTP com status " ++ pretty (status resposta))),
     after (chamadas_iniciais cnpj (status resposta)) w).
Proof.
  intros resposta Hne. apply Z.eqb_neq in Hne.
  unfold obter_dados_empresa_por_cnpj, HTTPSConnection, request, getresponse,
    print, emit, bind, ret. simpl. fold resposta. rewrite Hne. simpl.
  rewrite !log_after, !after_after. done.
Qed.

(** Status 200: the body is read and the connection closed, then the
    bytes are decoded and parsed inside the [try]. *)
Lemma obter_dados_status_200 servidor json_loads cnpj w :
  let resposta := servidor "www.receitaws.com.br" "GET" ("/v1/cnpj/" ++ cnpj) in
  status resposta = 200%Z →
  obter_dados_empresa_por_cnpj servidor json_loads cnpj w
  = let w1 := after (chamadas_iniciais cnpj 200 ++ [ERead; EClose]) w in
    let texto := body resposta in
    if utf8_valid texto then
      match json_loads texto with
      | Ret empresa =>
          (Ret empresa,
           after [EJsonLoads texto;
                  EPrint ("Empresa decodificada: " ++ py_str empresa)] w1)
      | Raise (JSONDecodeError msg) =>
          (Ret (ErrorResult "Erro na decodificação do JSON."),
           after [EJsonLoads texto;
                  EPrint ("Erro na decodificação do JSON: " ++ msg)] w1)
      | Raise e => (Raise e, after [EJsonLoads texto] w1)
      end
    else (Raise UnicodeDecodeError, w1).
Proof.
  intros resposta Hst.
  unfold obter_dados_empresa_por_cnpj, HTTPSConnection, request, getresponse,
    read, close, loads, try_except, print, emit, bind, ret, lift, decode_utf8.
  simpl. fold resposta. rewrite Hst. simpl.
  rewrite !log_after, !after_after. simpl.
  destruct (utf8_valid (body resposta)); [|done].
  rewrite !log_after, !after_after. simpl.
  destruct (json_loads (body resposta)) as [empresa|e].
  - by rewrite !log_after, !after_after.
  - destruct e; try done. by rewrite !log_after, !after_after.
Qed.

(** * The claims *)

(** ** Normaliser *)

(** C4, as amended. For a record whose [atividade_principal] is a sequence
    of records that each have a [text] field holding a string, the
    normaliser rebinds that key, in place, to the texts joined with "; ".
    It does the same for [atividades_secundarias] provided the block for
    [atividade_principal], when that key is present, did not raise. The
    rebinding is in the store whether or not a later block raises. *)
Theorem tratar_atividades_joined w l d :
  store w !! l = Some d →
  ∃ d', store (tratar_dados_aninhados l w).2 !! l = Some d' ∧
    (∀ xs ts,
       Dict.lookup "atividade_principal" d = Some (VList xs) →
       Forall2 (λ x t, text_of x = Some t) xs ts →
       Dict.lookup "atividade_principal" d' = Some (VStr (String.concat "; " ts))) ∧
    (∀ xs ts,
       Dict.lookup "atividades_secundarias" d = Some (VList xs) →
       Forall2 (λ x t, text_of x = Some t) xs ts →
       block_ok "atividade_principal" join_text d = true →
       Dict.lookup "atividades_secundarias" d' = Some (VStr (String.concat "; " ts))).
Proof.
  intros Hd. rewrite (tratar_dados_aninhados_run l d w Hd). simpl.
  exists (normalise d).2. split; [apply store_with_object|]. split.
  - intros xs ts Hk Hts. eapply normalise_field1; [done|]. by apply join_text_list.
  - intros xs ts Hk Hts Hok. eapply normalise_field2; [done..|]. by apply join_text_list.
Qed.

(** C4 on the spec's example: [{text: "A"}, {text: "B"}] becomes "A; B". *)
Lemma tratar_atividades_joined_witness :
  let d := [("atividade_principal", VList [VDict [("text", VStr "A")]; VDict [("text", VStr "B")]]);
            ("atividades_secundarias", VList [VDict [("text", VStr "C")]])] in
  store (mundo d) !! 1%positive = Some d ∧
  ∃ d', store (tratar_dados_aninhados 1 (mundo d)).2 !! 1%positive = Some d' ∧
        Dict.lookup "atividade_principal" d' = Some (VStr "A; B") ∧
        Dict.lookup "atividades_secundarias" d' = Some (VStr "C").
Proof.
  intros d. split; [reflexivity|].
  destruct (tratar_atividades_joined (mundo d) 1%positive d eq_refl) as (d' & Hs & H1 & H2).
  exists d'. split; [exact Hs|]. split.
  - eapply (H1 _ ["A"; "B"]); [reflexivity | repeat constructor].
  - eapply (H2 _ ["C"]); [reflexivity | repeat constructor | reflexivity].
Defined.

(** C4 as stated fails twice: a [text] that is not a string makes [join]
    raise, and a malformed [atividade_principal] ends the call before
    [atividades_secundarias] is looked at. In both cases the record is
    left as it was. *)
Lemma tratar_atividades_not_joined :
  (let d := [("atividade_principal", VList [VDict [("text", VInt 1)]])] in
   tratar_dados_aninhados 1 (mundo d) = (Raise TypeError, mundo d))
  ∧
  (let d := [("atividade_principal", VInt 5);
             ("atividades_secundarias", VList [VDict [("text", VStr "A")]])] in
   tratar_dados_aninhados 1 (mundo d) = (Raise TypeError, mundo d)).
Proof. split; vm_compute; reflexivity. Qed.

(** C5, as amended. For a record whose [qsa] is a sequence of records that
    each have a [nome] field and possibly a [qual] field, and whose two
    activity fields, when present, are converted without error, the
    normaliser returns normally and has rebound [qsa] to the entries
    rendered as "<nome> (<qual or empty>)" and joined with "; ". *)
Theorem tratar_qsa_joined w l d qs ss :
  store w !! l = Some d →
  Dict.lookup "qsa" d = Some (VList qs) →
  Forall2 (λ q s, socio_of q = Some s) qs ss →
  block_ok "atividade_principal" join_text d = true →
  block_ok "atividades_secundarias" join_text d = true →
  ∃ d', tratar_dados_aninhados l w = (Ret l, with_object l d' w) ∧
        Dict.lookup "qsa" d' = Some (VStr (String.concat "; " ss)).
Proof.
  intros Hd Hk Hss H1 H2. rewrite (tratar_dados_aninhados_run l d w Hd).
  pose proof (join_qsa_list qs ss Hss) as Hj.
  exists (normalise d).2. split.
  - rewrite normalise_ok; [done..|]. by eapply block_ok_list.
  - by eapply normalise_field3.
Qed.

(** C5 on the spec's example: [{nome: "X", qual: "Socio"}, {nome: "Y"}]
    becomes "X (Socio); Y ()". *)
Lemma tratar_qsa_joined_witness :
  let d := [("qsa", VList [VDict [("nome", VStr "X"); ("qual", VStr "Socio")];
                           VDict [("nome", VStr "Y")]])] in
  store (mundo d) !! 1%positive = Some d ∧
  ∃ d', tratar_dados_aninhados 1 (mundo d) = (Ret 1%positive, with_object 1 d' (mundo d)) ∧
        Dict.lookup "qsa" d' = Some (VStr "X (Socio); Y ()").
Proof.
  intros d. split; [reflexivity|].
  eapply (tratar_qsa_joined (mundo d) 1%positive d _ ["X (Socio)"; "Y ()"]);
    [reflexivity | reflexivity | repeat constructor | reflexivity | reflexivity].
Defined.

(** C5 as stated fails when an earlier block raises: the call ends there
    and [qsa] keeps its sequence. *)
Lemma tratar_qsa_not_joined :
  let d := [("atividade_principal", VInt 5);
            ("qsa", VList [VDict [("nome", VStr "X"); ("qual", VStr "Socio")]])] in
  tratar_dados_aninhados 1 (mundo d) = (Raise TypeError, mundo d).
Proof. vm_compute. reflexivity. Qed.

(** C7. A record with none of the five known keys is returned as it is,
    and nothing in the world changes; for every record, the fields other
    than those five have the same values after the call, whether it
    returns or raises. *)
Theorem tratar_frame w l d :
  store w !! l = Some d →
  (forallb (λ k, negb (Dict.contains k d)) known_keys = true →
     tratar_dados_aninhados l w = (Ret l, w))
  ∧ ∃ d', store (tratar_dados_aninhados l w).2 !! l = Some d' ∧
          ∀ k, k ∉ known_keys → Dict.lookup k d' = Dict.lookup k d.
Proof.
  intros Hd. rewrite (tratar_dados_aninhados_run l d w Hd). split.
  - intros Hnone. unfold normalise. rewrite rewrite_fields_absent.
    + simpl. by rewrite with_object_id.
    + rewrite known_fields_keys. intros k Hk.
      rewrite forallb_forall in Hnone. apply list_elem_of_In, Hnone in Hk.
      unfold Dict.contains in Hk. by destruct (Dict.lookup k d).
  - exists (normalise d).2. split; [apply store_with_object|].
    intros k Hk. apply rewrite_fields_frame. by rewrite known_fields_keys.
Qed.

Lemma tratar_frame_witness :
  let d := [("cnpj", VStr "06947283000160"); ("nome", VStr "ACME LTDA");
            ("capital_social", VFloat "1000.0")] in
  store (mundo d) !! 1%positive = Some d ∧
  tratar_dados_aninhados 1 (mundo d) = (Ret 1%positive, mundo d) ∧
  ∃ d', store (tratar_dados_aninhados 1 (mundo d)).2 !! 1%positive = Some d' ∧
        Dict.lookup "nome" d' = Some (VStr "ACME LTDA").
Proof.
  intros d. split; [reflexivity|].
  destruct (tratar_frame (mundo d) 1%positive d eq_refl) as [H1 (d' & Hs & H2)].
  split; [apply H1; reflexivity|].
  exists d'. split; [exact Hs|]. rewrite H2; [reflexivity|].
  unfold known_keys. rewrite !not_elem_of_cons.
  repeat split; try discriminate. apply not_elem_of_nil.
Defined.

(** C10, as amended. The normaliser works in place on the object it was
    given: after the call the store differs at most at that location, the
    mapping there has the keys of the input in the same order, and the
    call either returns the location it received or raises. *)
Theorem tratar_keys_preserved w l d :
  store w !! l = Some d →
  ∃ o d', tratar_dados_aninhados l w = (o, with_object l d' w) ∧
          Dict.keys d' = Dict.keys d ∧
          (o = Ret l ∨ ∃ e, o = Raise e).
Proof.
  intros Hd. rewrite (tratar_dados_aninhados_run l d w Hd).
  eexists _, (normalise d).2. split; [done|]. split.
  - apply rewrite_fields_keys.
  - destruct (normalise d).1; [by left | right; by eexists].
Qed.

Lemma tratar_keys_preserved_witness :
  let d := [("cnpj", VStr "06947283000160");
            ("atividade_principal", VList [VDict [("text", VStr "Consultoria")]]);
            ("billing", VDict [("free", VBool true)])] in
  store (mundo d) !! 1%positive = Some d ∧
  ∃ o d', tratar_dados_aninhados 1 (mundo d) = (o, with_object 1 d' (mundo d)) ∧
          Dict.keys d' = ["cnpj"; "atividade_principal"; "billing"] ∧
          (o = Ret 1%positive ∨ ∃ e, o = Raise e).
Proof.
  intros d. split; [reflexivity|].
  exact (tratar_keys_preserved (mundo d) 1%positive d eq_refl).
Defined.

(** C10 as stated fails where the normaliser raises: the call hands no
    mapping back. *)
Lemma tratar_raises_returns_nothing :
  let d := [("cnpj", VStr "06947283000160");
            ("atividade_principal", VList [VDict [("code", VStr "62.01-5-01")]])] in
  (tratar_dados_aninhados 1 (mundo d)).1 = Raise (KeyError "text").
Proof. vm_compute. reflexivity. Qed.

(** An entry without [text] (in either activity field) or without [nome]
    (in [qsa]) makes the normaliser raise; nothing converts the exception
    into a value. *)
Lemma tratar_missing_field_raises w l d k xs :
  store w !! l = Some d →
  Dict.lookup k d = Some (VList xs) →
  ((k = "atividade_principal" ∨ k = "atividades_secundarias")
     ∧ existsb (lacks "text") xs = true)
  ∨ (k = "qsa" ∧ existsb (lacks "nome") xs = true) →
  ∃ e, (tratar_dados_aninhados l w).1 = Raise e.
Proof.
  intros Hd Hk Hbad. rewrite (tratar_dados_aninhados_run l d w Hd). simpl.
  assert (∃ f e, (k, f) ∈ known_fields ∧ f (VList xs) = Raise e) as (f & e & Hin & Hf).
  { destruct Hbad as [[Hkk Hx]|[-> Hx]].
    - destruct (join_text_lacks xs Hx) as [e He]. exists join_text, e.
      split; [|done]. unfold known_fields.
      destruct Hkk as [-> | ->]; repeat first [apply list_elem_of_here | apply list_elem_of_further].
    - destruct (join_qsa_lacks xs Hx) as [e He]. exists join_qsa, e.
      split; [|done]. unfold known_fields.
      repeat first [apply list_elem_of_here | apply list_elem_of_further]. }
  destruct (rewrite_fields_raises known_fields d k f (VList xs) e) as [e' He'];
    [apply known_keys_NoDup | done..|].
  unfold normalise. rewrite He'. by eexists.
Qed.

(** ** Exporter *)







(** ** Fetcher *)

(** Status 200 and a body that decodes but is not a JSON document: the
    fixed error record; the parser's diagnostic goes to the console only. *)
Lemma obter_dados_malformed_json servidor json_loads cnpj msg w :
  let resposta := servidor "www.receitaws.com.br" "GET" ("/v1/cnpj/" ++ cnpj) in
  status resposta = 200%Z →
  utf8_valid (body resposta) = true →
  json_loads (body resposta) = Raise (JSONDecodeError msg) →
  obter_dados_empresa_por_cnpj servidor json_loads cnpj w
  = (Ret (VDict [("status", VStr "ERROR");
                 ("message", VStr "Erro na decodificação do JSON.")]),
     after [EJsonLoads (body resposta);
            EPrint ("Erro na decodificação do JSON: " ++ msg)]
       (after (chamadas_iniciais cnpj 200 ++ [ERead; EClose]) w)).
Proof.
  intros resposta Hst Hval Hjs.
  rewrite (obter_dados_status_200 servidor json_loads cnpj w Hst). simpl.
  fold resposta. by rewrite Hval, Hjs.
Qed.

(** Status 200 and a JSON document: the parsed value, as it is. *)
Lemma obter_dados_parsed servidor json_loads cnpj empresa w :
  let resposta := servidor "www.receitaws.com.br" "GET" ("/v1/cnpj/" ++ cnpj) in
  status resposta = 200%Z →
  utf8_valid (body resposta) = true →
  json_loads (body resposta) = Ret empresa →
  obter_dados_empresa_por_cnpj servidor json_loads cnpj w
  = (Ret empresa,
     after [EJsonLoads (body resposta);
            EPrint ("Empresa decodificada: " ++ py_str empresa)]
       (after (chamadas_iniciais cnpj 200 ++ [ERead; EClose]) w)).
Proof.
  intros resposta Hst Hval Hjs.
  rewrite (obter_dados_status_200 servidor json_loads cnpj w Hst). simpl.
  fold resposta. by rewrite Hval, Hjs.
Qed.

(** On status 200 the body is read and the connection closed, in that
    order, whatever happens afterwards. *)
Lemma obter_dados_200_read_and_closed servidor json_loads cnpj w :
  status (servidor "www.receitaws.com.br" "GET" ("/v1/cnpj/" ++ cnpj)) = 200%Z →
  ∃ calls,
    (obter_dados_empresa_por_cnpj servidor json_loads cnpj w).2
    = after (chamadas_iniciais cnpj 200 ++ [ERead; EClose] ++ calls) w.
Proof.
  intros Hst. rewrite (obter_dados_status_200 servidor json_loads cnpj w Hst). simpl.
  set (texto := body _).
  destruct (utf8_valid texto); [|by exists []].
  destruct (json_loads texto) as [v|e];
    [|destruct e]; eexists; simpl; rewrite after_after; reflexivity.
Qed.

(** C2. Whatever status code other than 200 the server answers, the
    fetcher returns the record with [status] "ERROR" and a [message] that
    ends with the code. It has then made four calls: none reads the body,
    none parses JSON. *)
Theorem obter_dados_non_200 servidor json_loads cnpj w :
  let resposta := servidor "www.receitaws.com.br" "GET" ("/v1/cnpj/" ++ cnpj) in
  status resposta ≠ 200%Z →
  obter_dados_empresa_por_cnpj servidor json_loads cnpj w
  = (Ret (VDict [("status", VStr "ERROR");
                 ("message", VStr ("Resposta HTTP com status " ++ pretty (status resposta)))]),
     after (chamadas_iniciais cnpj (status resposta)) w)
  ∧ (ERead ∉ chamadas_iniciais cnpj (status resposta))
  ∧ (∀ text, EJsonLoads text ∉ chamadas_iniciais cnpj (status resposta)).
Proof.
  intros resposta Hne. split; [by apply obter_dados_status_erro|].
  unfold chamadas_iniciais. split; [|intros text];
    rewrite !not_elem_of_cons; repeat split; try done; apply not_elem_of_nil.
Qed.

Lemma obter_dados_non_200_witness :
  (status (sempre 503 "Service Unavailable" "www.receitaws.com.br" "GET"
             ("/v1/cnpj/" ++ cnpj_exemplo)) ≠ 200%Z) ∧
  (obter_dados_empresa_por_cnpj (sempre 503 "Service Unavailable")
     (λ _, Ret VNone) cnpj_exemplo (mundo [])).1
  = Ret (VDict [("status", VStr "ERROR");
                ("message", VStr "Resposta HTTP com status 503")]).
Proof.
  split; [discriminate|].
  destruct (obter_dados_non_200 (sempre 503 "Service Unavailable") (λ _, Ret VNone)
              cnpj_exemplo (mundo []) ltac:(discriminate)) as [-> _].
  vm_compute. reflexivity.
Defined.

(** C3, where the code departs from it. Status 200 and a body that is not
    UTF-8: the decoding raises inside the [try], the [except] clause names
    [JSONDecodeError] only, and [UnicodeDecodeError] leaves the fetcher.
    No error record is returned. *)
Theorem obter_dados_invalid_utf8_raises json_loads cnpj w :
  obter_dados_empresa_por_cnpj (sempre 200 corpo_invalido) json_loads cnpj w
  = (Raise UnicodeDecodeError,
     after (chamadas_iniciais cnpj 200 ++ [ERead; EClose]) w).
Proof.
  by rewrite (obter_dados_status_200 (sempre 200 corpo_invalido) json_loads cnpj w eq_refl).
Qed.

(** C8, where the code departs from it. The failure of the fetcher on a
    body that is not UTF-8 is not turned into an error record: the
    exception goes through the module body and ends the run, before the
    exporter is called. *)
Theorem main_invalid_utf8_uncaught json_loads excel w :
  main (sempre 200 corpo_invalido) json_loads excel w
  = (Raise UnicodeDecodeError,
     after (chamadas_iniciais cnpj_exemplo 200 ++ [ERead; EClose]) w).
Proof.
  unfold main, bind.
  by rewrite (obter_dados_status_200 (sempre 200 corpo_invalido) json_loads
                cnpj_exemplo w eq_refl).
Qed.

(** C9, where the code departs from it. On status 404 the fetcher returns
    from inside the test of the status code: the calls it has made are the
    four initial ones, and neither [read] nor [close] is among them. *)
Theorem obter_dados_non_200_not_closed json_loads cnpj bytes w :
  (obter_dados_empresa_por_cnpj (sempre 404 bytes) json_loads cnpj w).2
  = after (chamadas_iniciais cnpj 404) w
  ∧ (ERead ∉ chamadas_iniciais cnpj 404)
  ∧ (EClose ∉ chamadas_iniciais cnpj 404).
Proof.
  rewrite (obter_dados_status_erro (sempre 404 bytes) json_loads cnpj w)
    by discriminate.
  split; [done|]. unfold chamadas_iniciais.
  split; rewrite !not_elem_of_cons; repeat split; try done; apply not_elem_of_nil.
Qed.

(** ** The whole run *)

(** The spec's end-to-end scenario. *)
Example main_scenario :
  let empresa :=
    VDict [("cnpj", VStr "06947283000160");
           ("atividade_principal", VList [VDict [("text", VStr "Consultoria")]]);
           ("qsa", VList [VDict [("nome", VStr "Maria"); ("qual", VStr "Socia")]])] in
  let r := main (sempre 200 "{}") (λ _, Ret empresa) escritor_ideal
             {| store := ∅; files := ∅; trace := [] |} in
  r.1 = Ret tt ∧
  files r.2 !! nome_arquivo_padrao
  = Some [[VStr "cnpj"; VStr "atividade_principal"; VStr "qsa"];
          [VStr "06947283000160"; VStr "Consultoria"; VStr "Maria (Socia)"]].
Proof. split; vm_compute; reflexivity. Qed.

(** * Further properties of the three functions and of the module body *)

(** ** Normaliser: what a successful call leaves *)

Lemma setitem_same k v d : Dict.lookup k d = Some v → Dict.setitem k v d = d.
Proof.
  induction d as [|[k0 v0] d IH]; simpl; [done|].
  destruct (String.eqb k0 k) eqn:E.
  - apply String.eqb_eq in E. by intros [= ->]; subst.
  - intros H. by rewrite IH.
Qed.

Lemma rewrite_fields_value fs d k f v s :
  NoDup (map fst fs) → (k, f) ∈ fs → (rewrite_fields fs d).1 = Ret tt →
  Dict.lookup k d = Some v → f v = Ret s →
  Dict.lookup k (rewrite_fields fs d).2 = Some (VStr s).
Proof.
  revert d. induction fs as [|[k0 f0] fs IH]; intros d Hnd Hin Hok Hk Hf.
  { by apply elem_of_nil in Hin. }
  simpl in Hnd. apply NoDup_cons in Hnd as [Hk0 Hnd].
  rewrite rewrite_fields_cons in *.
  apply elem_of_cons in Hin as [Heq|Hin].
  - injection Heq as <- <-. rewrite Hk, Hf.
    rewrite rewrite_fields_frame by done. apply lookup_setitem_eq.
  - assert (k0 ≠ k) as Hne.
    { intros ->. apply Hk0. apply list_elem_of_fmap. by exists (k, f). }
    destruct (Dict.lookup k0 d) as [v0|]; [|by apply IH].
    destruct (f0 v0) as [s0|e0]; [|done].
    apply IH; try done. by rewrite lookup_setitem_ne.
Qed.

Lemma rewrite_fields_strings fs d k f v :
  NoDup (map fst fs) → (k, f) ∈ fs → (rewrite_fields fs d).1 = Ret tt →
  Dict.lookup k (rewrite_fields fs d).2 = Some v → ∃ s, v = VStr s.
Proof.
  revert d. induction fs as [|[k0 f0] fs IH]; intros d Hnd Hin Hok Hk.
  { by apply elem_of_nil in Hin. }
  simpl in Hnd. apply NoDup_cons in Hnd as [Hk0 Hnd].
  rewrite rewrite_fields_cons in *.
  apply elem_of_cons in Hin as [Heq|Hin].
  - injection Heq as <- <-.
    destruct (Dict.lookup k d) as [v0|] eqn:Hkd.
    + destruct (f v0) as [s0|e0]; [|done].
      rewrite rewrite_fields_frame, lookup_setitem_eq in Hk by done.
      injection Hk as <-. by eexists.
    + rewrite rewrite_fields_frame in Hk by done. congruence.
  - destruct (Dict.lookup k0 d) as [v0|]; [|by eapply IH].
    destruct (f0 v0) as [s0|e0]; [|done]. by eapply IH.
Qed.

Lemma known_fields_NoDup : NoDup (map fst known_fields).
Proof. rewrite known_fields_keys. apply known_keys_NoDup. Qed.

Lemma known_key_field k : k ∈ known_keys → ∃ f, (k, f) ∈ known_fields.
Proof.
  rewrite <- known_fields_keys. intros Hk.
  apply list_elem_of_fmap in Hk as ([k' f] & -> & Hin). by exists f.
Qed.

(** X1. When the three joined fields, if present, are converted without
    error, the call returns normally, and [billing] and [extra], if
    present, are rebound to [str] of the value they had. Stated for values
    whose text is ASCII, on which [py_str] is Python's [str]. *)
Theorem tratar_billing_extra w l d :
  store w !! l = Some d →
  block_ok "atividade_principal" join_text d = true →
  block_ok "atividades_secundarias" join_text d = true →
  block_ok "qsa" join_qsa d = true →
  ∃ d', tratar_dados_aninhados l w = (Ret l, with_object l d' w) ∧
    (∀ v, Dict.lookup "billing" d = Some v → ascii_value v = true →
          Dict.lookup "billing" d' = Some (VStr (py_str v))) ∧
    (∀ v, Dict.lookup "extra" d = Some v → ascii_value v = true →
          Dict.lookup "extra" d' = Some (VStr (py_str v))).
Proof.
  intros Hd H1 H2 H3. rewrite (tratar_dados_aninhados_run l d w Hd).
  pose proof (normalise_ok d H1 H2 H3) as Hok.
  exists (normalise d).2. rewrite Hok. split; [done|].
  split; intros v Hv _;
    (eapply (rewrite_fields_value known_fields d _ (λ v, Ret (py_str v)));
     [apply known_fields_NoDup | | exact Hok | exact Hv | done]);
    unfold known_fields;
    repeat first [apply list_elem_of_here | apply list_elem_of_further].
Qed.

Lemma tratar_billing_extra_witness :
  let d := [("billing", VDict [("free", VBool true); ("database", VBool true)]);
            ("extra", VDict []);
            ("qsa", VList [])] in
  store (mundo d) !! 1%positive = Some d ∧
  ∃ d', tratar_dados_aninhados 1 (mundo d) = (Ret 1%positive, with_object 1 d' (mundo d)) ∧
        Dict.lookup "billing" d' = Some (VStr "{'free': True, 'database': True}") ∧
        Dict.lookup "extra" d' = Some (VStr "{}").
Proof.
  intros d. split; [reflexivity|].
  destruct (tratar_billing_extra (mundo d) 1%positive d eq_refl eq_refl eq_refl eq_refl)
    as (d' & Hrun & Hb & He).
  exists d'. split; [exact Hrun|]. split.
  - rewrite (Hb _ eq_refl eq_refl). vm_compute. reflexivity.
  - rewrite (He _ eq_refl eq_refl). vm_compute. reflexivity.
Defined.

(** X2. Whenever the call returns, each of the five known keys that the
    record has is bound to a string. *)
Theorem tratar_known_fields_are_strings w l d w1 k v :
  store w !! l = Some d →
  tratar_dados_aninhados l w = (Ret l, w1) →
  k ∈ known_keys →
  ∃ d1, store w1 !! l = Some d1 ∧
        (Dict.lookup k d1 = Some v → ∃ s, v = VStr s).
Proof.
  intros Hd Hrun Hk. rewrite (tratar_dados_aninhados_run l d w Hd) in Hrun.
  destruct (normalise d).1 as [[]|e] eqn:Hok; [|done].
  injection Hrun as <-. exists (normalise d).2. split; [apply store_with_object|].
  destruct (known_key_field k Hk) as [f Hf].
  by apply (rewrite_fields_strings known_fields d k f v known_fields_NoDup Hf).
Qed.

Lemma tratar_known_fields_are_strings_witness :
  let d := [("qsa", VList [VDict [("nome", VInt 7)]]); ("extra", VNone)] in
  store (mundo d) !! 1%positive = Some d ∧
  tratar_dados_aninhados 1 (mundo d)
  = (Ret 1%positive, mundo [("qsa", VStr "7 ()"); ("extra", VStr "None")]) ∧
  ∃ d1, store (mundo [("qsa", VStr "7 ()"); ("extra", VStr "None")]) !! 1%positive = Some d1 ∧
        (Dict.lookup "extra" d1 = Some (VStr "None") → ∃ s, VStr "None" = VStr s).
Proof.
  intros d.
  assert (tratar_dados_aninhados 1 (mundo d)
          = (Ret 1%positive, mundo [("qsa", VStr "7 ()"); ("extra", VStr "None")])) as Hrun
    by (vm_compute; reflexivity).
  split; [reflexivity|]. split; [exact Hrun|].
  apply (tratar_known_fields_are_strings (mundo d) 1%positive d _ "extra" _ eq_refl Hrun).
  unfold known_keys. repeat first [apply list_elem_of_here | apply list_elem_of_further].
Defined.

(** ** Normaliser: how it fails *)

Lemma comprehension_raise {A B} (g : A → outcome B) xs e :
  comprehension g xs = Raise e → ∃ x, x ∈ xs ∧ g x = Raise e.
Proof.
  induction xs as [|x xs IH]; simpl; [done|].
  destruct (g x) as [y|e'] eqn:Hg; simpl.
  - destruct (comprehension g xs) as [ys|e'']; simpl; [done|].
    intros [= ->]. destruct IH as (x' & Hin & Hx'); [done|].
    exists x'. split; [by apply list_elem_of_further|done].
  - intros [= ->]. exists x. split; [apply list_elem_of_here|done].
Qed.

Lemma subscript_raise v k e :
  subscript v k = Raise e → e = KeyError k ∨ e = TypeError.
Proof.
  destruct v; simpl; try (intros [= <-]; by right).
  unfold Dict.getitem. destruct (Dict.lookup k kvs); [done|].
  intros [= <-]. by left.
Qed.

Lemma str_join_raise sep items e : str_join sep items = Raise e → e = TypeError.
Proof.
  unfold str_join. destruct (comprehension as_str items) as [ss|e'] eqn:Hc; [done|].
  simpl. intros [= ->]. apply comprehension_raise in Hc as (x & _ & Hx).
  destruct x; simpl in Hx; congruence.
Qed.

Lemma py_iter_raise v e : py_iter v = Raise e → e = TypeError.
Proof. destruct v; simpl; congruence. Qed.

Lemma join_text_raise v e :
  join_text v = Raise e → e = KeyError "text" ∨ e = TypeError.
Proof.
  unfold join_text. destruct (py_iter v) as [itens|e'] eqn:Hi; simpl.
  - destruct (comprehension _ itens) as [ts|e'] eqn:Hc; simpl.
    + intros H. right. by eapply str_join_raise.
    + intros [= ->]. apply comprehension_raise in Hc as (x & _ & Hx).
      by eapply subscript_raise.
  - intros [= ->]. right. by eapply py_iter_raise.
Qed.

Lemma format_socio_raise q e :
  format_socio q = Raise e → e = KeyError "nome" ∨ e = TypeError.
Proof.
  unfold format_socio. destruct (subscript q "nome") as [nome|e'] eqn:Hs; simpl.
  - by destruct q.
  - intros [= ->]. by eapply subscript_raise.
Qed.

Lemma join_qsa_raise v e :
  join_qsa v = Raise e → e = KeyError "nome" ∨ e = TypeError.
Proof.
  unfold join_qsa. destruct (py_iter v) as [itens|e'] eqn:Hi; simpl.
  - destruct (comprehension format_socio itens) as [ts|e'] eqn:Hc; simpl.
    + intros H. right. by eapply str_join_raise.
    + intros [= ->]. apply comprehension_raise in Hc as (x & _ & Hx).
      by eapply format_socio_raise.
  - intros [= ->]. right. by eapply py_iter_raise.
Qed.

Lemma rewrite_fields_raise_from fs d e :
  (rewrite_fields fs d).1 = Raise e → ∃ k f v, (k, f) ∈ fs ∧ f v = Raise e.
Proof.
  revert d. induction fs as [|[k0 f0] fs IH]; intros d; [done|].
  rewrite rewrite_fields_cons.
  destruct (Dict.lookup k0 d) as [v0|].
  - destruct (f0 v0) as [s|e0] eqn:Hf.
    + intros H. destruct (IH _ H) as (k & f & v & Hin & Hv).
      exists k, f, v. split; [by apply list_elem_of_further|done].
    + simpl. intros [= ->]. exists k0, f0, v0. split; [apply list_elem_of_here|done].
  - intros H. destruct (IH _ H) as (k & f & v & Hin & Hv).
    exists k, f, v. split; [by apply list_elem_of_further|done].
Qed.

(** X3. On a record, the call raises nothing but [KeyError] for [text],
    [KeyError] for [nome], or [TypeError]: in particular [q.get] never
    raises, because [q['nome']] is evaluated before it. *)
Theorem tratar_raises_only w l d e :
  store w !! l = Some d →
  (tratar_dados_aninhados l w).1 = Raise e →
  e = KeyError "text" ∨ e = KeyError "nome" ∨ e = TypeError.
Proof.
  intros Hd. rewrite (tratar_dados_aninhados_run l d w Hd). simpl.
  destruct (normalise d).1 as [[]|e'] eqn:Hn; [done|]. intros [= ->].
  apply rewrite_fields_raise_from in Hn as (k & f & v & Hin & Hf).
  unfold known_fields in Hin.
  repeat (apply elem_of_cons in Hin as [[= -> ->]|Hin]); try done.
  - apply join_text_raise in Hf as [->| ->]; auto.
  - apply join_text_raise in Hf as [->| ->]; auto.
  - apply join_qsa_raise in Hf as [->| ->]; auto.
  - by apply elem_of_nil in Hin.
Qed.

Lemma tratar_raises_only_witness :
  let d := [("qsa", VList [VDict [("nome", VStr "X")]; VInt 3])] in
  store (mundo d) !! 1%positive = Some d ∧
  (tratar_dados_aninhados 1 (mundo d)).1 = Raise TypeError ∧
  (TypeError = KeyError "text" ∨ TypeError = KeyError "nome" ∨ TypeError = TypeError).
Proof.
  intros d. split; [reflexivity|].
  assert ((tratar_dados_aninhados 1 (mundo d)).1 = Raise TypeError) as Hr
    by (vm_compute; reflexivity).
  split; [exact Hr|].
  exact (tratar_raises_only (mundo d) 1%positive d TypeError eq_refl Hr).
Defined.

(** X5. A value that is not a list under [atividade_principal] (the
    service answering with null, a number, a single object or a text)
    makes the call raise [TypeError] before anything is changed, unless
    it is an empty text or an empty object. *)
Theorem tratar_atividade_not_a_list w l d v :
  store w !! l = Some d →
  Dict.lookup "atividade_principal" d = Some v →
  list_or_empty v = false →
  tratar_dados_aninhados l w = (Raise TypeError, w).
Proof.
  intros Hd Hk Hv. rewrite (tratar_dados_aninhados_run l d w Hd).
  unfold normalise, known_fields. rewrite rewrite_fields_cons, Hk.
  assert (join_text v = Raise TypeError) as ->.
  { destruct v as [| | | |s|xs|kvs]; try done.
    - by destruct s.
    - by destruct kvs as [|[k0 v0] kvs]. }
  simpl. by rewrite with_object_id.
Qed.

Lemma tratar_atividade_not_a_list_witness :
  let d := [("cnpj", VStr "06947283000160");
            ("atividade_principal", VDict [("text", VStr "Consultoria")])] in
  store (mundo d) !! 1%positive = Some d ∧
  tratar_dados_aninhados 1 (mundo d) = (Raise TypeError, mundo d).
Proof.
  intros d. split; [reflexivity|].
  eapply (tratar_atividade_not_a_list (mundo d) 1%positive d); reflexivity.
Defined.

(** ** Normaliser and exporter: a second call on the same object *)

Lemma join_text_str s :
  join_text (VStr s) = match s with EmptyString => Ret "" | String _ _ => Raise TypeError end.
Proof. by destruct s. Qed.

Lemma join_qsa_str s :
  join_qsa (VStr s) = match s with EmptyString => Ret "" | String _ _ => Raise TypeError end.
Proof. by destruct s. Qed.

(** On a mapping whose known fields are all strings, the five blocks
    change nothing: a joined field that is not empty raises, the others
    are bound again to the string they hold. *)
Lemma normalise_again d :
  (∀ k v, k ∈ known_keys → Dict.lookup k d = Some v → ∃ s, v = VStr s) →
  normalise d
  = (if joined_empty "atividade_principal" d
        && joined_empty "atividades_secundarias" d
        && joined_empty "qsa" d
     then Ret tt else Raise TypeError, d).
Proof.
  intros Hstr. unfold normalise, known_fields, joined_empty.
  assert (∀ k, k ∈ known_keys →
            Dict.lookup k d = None ∨ ∃ s, Dict.lookup k d = Some (VStr s)) as Hk.
  { intros k Hin. destruct (Dict.lookup k d) as [v|] eqn:E; [|by left].
    destruct (Hstr k v Hin E) as [s ->]. right. by exists s. }
  assert (∀ k, k ∈ ["atividade_principal"; "atividades_secundarias"; "qsa";
                    "billing"; "extra"] → k ∈ known_keys) as Hall by done.
  rewrite rewrite_fields_cons.
  destruct (Hk "atividade_principal") as [-> | [s1 H1]];
    [apply Hall; compute_done | | rewrite H1, join_text_str;
       destruct s1; [rewrite (setitem_same _ _ _ H1) | done]];
  rewrite rewrite_fields_cons;
  (destruct (Hk "atividades_secundarias") as [-> | [s2 H2]];
    [apply Hall; compute_done | | rewrite H2, join_text_str;
       destruct s2; [rewrite (setitem_same _ _ _ H2) | done]]);
  rewrite rewrite_fields_cons;
  (destruct (Hk "qsa") as [-> | [s3 H3]];
    [apply Hall; compute_done | | rewrite H3, join_qsa_str;
       destruct s3; [rewrite (setitem_same _ _ _ H3) | done]]);
  rewrite rewrite_fields_cons;
  (destruct (Hk "billing") as [-> | [s4 H4]];
    [apply Hall; compute_done | | rewrite H4; simpl py_str;
       rewrite (setitem_same _ _ _ H4)]);
  rewrite rewrite_fields_cons;
  (destruct (Hk "extra") as [-> | [s5 H5]];
    [apply Hall; compute_done | | rewrite H5; simpl py_str;
       rewrite (setitem_same _ _ _ H5)]);
  done.
Qed.

Lemma normalise_result_strings d k v :
  (normalise d).1 = Ret tt → k ∈ known_keys →
  Dict.lookup k (normalise d).2 = Some v → ∃ s, v = VStr s.
Proof.
  intros Hok Hk Hv. destruct (known_key_field k Hk) as [f Hf].
  by apply (rewrite_fields_strings known_fields d k f v known_fields_NoDup Hf).
Qed.

(** X4. The normaliser is not meant to run twice on one object. After a
    call that returned, a second call changes nothing in the world; it
    returns when the record has none of the three joined fields with a
    non-empty text, and raises [TypeError] otherwise (the text is then
    iterated character by character and each character subscripted). *)
Theorem tratar_twice w l d w1 :
  store w !! l = Some d →
  tratar_dados_aninhados l w = (Ret l, w1) →
  ∃ d1, store w1 !! l = Some d1 ∧
    tratar_dados_aninhados l w1
    = (if joined_empty "atividade_principal" d1
          && joined_empty "atividades_secundarias" d1
          && joined_empty "qsa" d1
       then Ret l else Raise TypeError, w1).
Proof.
  intros Hd Hrun. rewrite (tratar_dados_aninhados_run l d w Hd) in Hrun.
  destruct (normalise d).1 as [[]|e] eqn:Hok; [|done].
  injection Hrun as <-. exists (normalise d).2.
  split; [apply store_with_object|].
  rewrite (tratar_dados_aninhados_run l (normalise d).2) by apply store_with_object.
  rewrite normalise_again.
  - simpl. rewrite with_object_id by apply store_with_object.
    by destruct (_ && _).
  - intros k v Hk Hv. by eapply normalise_result_strings.
Qed.

Lemma tratar_twice_witness :
  let d := [("atividade_principal", VList [VDict [("text", VStr "Consultoria")]])] in
  let d1 := [("atividade_principal", VStr "Consultoria")] in
  store (mundo d) !! 1%positive = Some d ∧
  tratar_dados_aninhados 1 (mundo d) = (Ret 1%positive, mundo d1) ∧
  tratar_dados_aninhados 1 (mundo d1) = (Raise TypeError, mundo d1).
Proof.
  intros d d1.
  assert (tratar_dados_aninhados 1 (mundo d) = (Ret 1%positive, mundo d1)) as Hrun
    by (vm_compute; reflexivity).
  split; [reflexivity|]. split; [exact Hrun|].
  destruct (tratar_twice (mundo d) 1%positive d (mundo d1) eq_refl Hrun) as (d1' & Hs & ->).
  unfold mundo in Hs. simpl in Hs. rewrite lookup_singleton_eq in Hs.
  injection Hs as <-. reflexivity.
Defined.

(** ** Exporter *)

Lemma export_guard_normalise d : export_guard (normalise d).2 = export_guard d.
Proof.
  unfold export_guard, Dict.get, normalise.
  rewrite rewrite_fields_frame by compute_done. f_equal.
  pose proof (rewrite_fields_keys known_fields d) as Hk. unfold Dict.keys in Hk.
  destruct (rewrite_fields known_fields d).2, d; simpl in *; congruence.
Qed.

(** X6. The exporter touches no file but the one it was given the name
    of, and no object but the record it was given, on each of its paths
    (skip, write, exception). *)
Theorem salvar_frame excel w l nome_arquivo path l' :
  path ≠ nome_arquivo → l' ≠ l →
  files (salvar_dados_empresa_excel excel l nome_arquivo w).2 !! path = files w !! path
  ∧ store (salvar_dados_empresa_excel excel l nome_arquivo w).2 !! l' = store w !! l'.
Proof.
  intros Hp Hl. destruct (store w !! l) as [d|] eqn:Hd.
  - rewrite (salvar_dados_empresa_excel_run excel l nome_arquivo d w Hd).
    destruct (export_guard d); [|done].
    destruct (normalise d).1 as [[]|e]; simpl.
    + unfold escrita.
      destruct (excel _ _ _) as [[[]|e] [|content]]; simpl;
        rewrite ?lookup_insert_ne by done; done.
    + by rewrite lookup_insert_ne.
  - unfold salvar_dados_empresa_excel, bind, deref. by rewrite Hd.
Qed.

Lemma salvar_frame_witness :
  let d := [("a", VInt 1); ("billing", VNone)] in
  let w := {| store := {[ 1%positive := d; 2%positive := d ]};
              files := {[ "outro.xlsx" := [[VStr "antigo"]] ]};
              trace := [] |} in
  ("outro.xlsx" ≠ "saida.xlsx" ∧ 2%positive ≠ 1%positive) ∧
  files (salvar_dados_empresa_excel escritor_ideal 1 "saida.xlsx" w).2 !! "outro.xlsx"
    = Some [[VStr "antigo"]]
  ∧ store (salvar_dados_empresa_excel escritor_ideal 1 "saida.xlsx" w).2 !! 2%positive = Some d.
Proof.
  intros d w. split; [split; discriminate|].
  destruct (salvar_frame escritor_ideal w 1%positive "saida.xlsx" "outro.xlsx" 2%positive
              ltac:(discriminate) ltac:(discriminate)) as [H1 H2].
  split; (etrans; [first [exact H1 | exact H2] | reflexivity]).
Defined.

(** X7. The exporter changes the caller's record, so exporting the same
    record again is not a repetition of the first export. After an export
    that wrote the file, a second one raises [TypeError] and leaves the
    world as it is when one of the three joined fields holds a non-empty
    text; otherwise it writes the same sheet again and only adds its
    console line. *)
Theorem salvar_twice excel w l d nome_arquivo w1 :
  store w !! l = Some d →
  d ≠ [] →
  Dict.lookup "status" d ≠ Some (VStr "ERROR") →
  salvar_dados_empresa_excel excel l nome_arquivo w = (Ret tt, w1) →
  ∃ d1, store w1 !! l = Some d1 ∧
    salvar_dados_empresa_excel excel l nome_arquivo w1
    = if joined_empty "atividade_principal" d1
         && joined_empty "atividades_secundarias" d1
         && joined_empty "qsa" d1
      then (Ret tt, after [aviso_salvo nome_arquivo] w1)
      else (Raise TypeError, w1).
Proof.
  intros Hd Hne Hst Hrun.
  rewrite (salvar_dados_empresa_excel_run excel l nome_arquivo d w Hd) in Hrun.
  pose proof (proj2 (export_guard_true d) (conj Hne Hst)) as Hg.
  rewrite Hg in Hrun.
  destruct (normalise d).1 as [[]|e] eqn:Hok; [|done].
  set (d1 := (normalise d).2) in *. unfold escrita in Hrun.
  destruct (excel (DataFrame d1) nome_arquivo false) as [[[]|e] eff] eqn:Hex; [|done].
  injection Hrun as <-.
  exists d1. split; [apply store_with_object|].
  rewrite (salvar_dados_empresa_excel_run excel l nome_arquivo d1)
    by apply store_with_object.
  unfold d1 at 1. rewrite export_guard_normalise, Hg.
  rewrite (normalise_again d1)
    by (intros k v Hk Hv; by eapply normalise_result_strings).
  simpl. rewrite (with_object_id _ l d1) by (simpl; apply lookup_insert_eq).
  destruct (_ && _); [|done].
  unfold escrita. rewrite Hex.
  unfold after, log, set_files, with_object, set_store. simpl.
  destruct eff as [|content]; simpl; [done|]. by rewrite insert_insert_eq.
Qed.

Lemma salvar_twice_witness :
  let d := [("cnpj", VStr "06947283000160");
            ("qsa", VList [VDict [("nome", VStr "Maria"); ("qual", VStr "Socia")]])] in
  let d1 := [("cnpj", VStr "06947283000160"); ("qsa", VStr "Maria (Socia)")] in
  let w1 := {| store := {[ 1%positive := d1 ]};
               files := {[ "saida.xlsx" := [[VStr "cnpj"; VStr "qsa"];
                                            [VStr "06947283000160"; VStr "Maria (Socia)"]] ]};
               trace := [aviso_salvo "saida.xlsx"] |} in
  store (mundo d) !! 1%positive = Some d ∧
  salvar_dados_empresa_excel escritor_ideal 1 "saida.xlsx" (mundo d) = (Ret tt, w1) ∧
  salvar_dados_empresa_excel escritor_ideal 1 "saida.xlsx" w1 = (Raise TypeError, w1).
Proof.
  intros d d1 w1.
  assert (salvar_dados_empresa_excel escritor_ideal 1 "saida.xlsx" (mundo d) = (Ret tt, w1)) as Hrun
    by (vm_compute; reflexivity).
  split; [reflexivity|]. split; [exact Hrun|].
  destruct (salvar_twice escritor_ideal (mundo d) 1%positive d "saida.xlsx" w1 eq_refl
              ltac:(discriminate) ltac:(discriminate) Hrun) as (d1' & Hs & Heq).
  etrans; [exact Heq|].
  assert (d1' = d1) as ->.
  { unfold w1 in Hs. simpl in Hs. rewrite lookup_singleton_eq in Hs. congruence. }
  reflexivity.
Defined.

(** ** Fetcher *)

(** X9. Whatever the fetcher returns is one of three values: the record
    with the status code when the status is not 200; the record with the
    fixed message when the parser raised [JSONDecodeError]; the parsed
    value itself. The two records are built so that the exporter's test
    rejects them. *)
Theorem obter_dados_returns servidor json_loads cnpj w v :
  let resposta := servidor "www.receitaws.com.br" "GET" ("/v1/cnpj/" ++ cnpj) in
  (obter_dados_empresa_por_cnpj servidor json_loads cnpj w).1 = Ret v →
  (status resposta ≠ 200%Z ∧
   v = ErrorResult ("Resposta HTTP com status " ++ pretty (status resposta)) ∧
   ∃ kvs, v = VDict kvs ∧ export_guard kvs = false)
  ∨ (status resposta = 200%Z ∧
     (∃ msg, json_loads (body resposta) = Raise (JSONDecodeError msg)) ∧
     v = ErrorResult "Erro na decodificação do JSON." ∧
     ∃ kvs, v = VDict kvs ∧ export_guard kvs = false)
  ∨ (status resposta = 200%Z ∧ json_loads (body resposta) = Ret v).
Proof.
  intros resposta. destruct (Z.eq_dec (status resposta) 200) as [Hst|Hst].
  - rewrite (obter_dados_status_200 servidor json_loads cnpj w Hst).
    fold resposta. simpl. destruct (utf8_valid (body resposta)); [|done].
    destruct (json_loads (body resposta)) as [v'|e] eqn:Hl.
    + intros [= <-]. by right; right.
    + destruct e; try done. simpl. intros [= <-]. right; left.
      split; [done|]. split; [by eexists|]. split; [done|]. by eexists.
  - rewrite (obter_dados_status_erro servidor json_loads cnpj w Hst).
    simpl. intros [= <-]. left. split; [done|]. split; [done|]. by eexists.
Qed.

Lemma obter_dados_returns_witness :
  let r := obter_dados_empresa_por_cnpj (sempre 200 "<html>")
             (λ _, Raise (JSONDecodeError "Expecting value: line 1 column 1 (char 0)"))
             cnpj_exemplo (mundo []) in
  r.1 = Ret (ErrorResult "Erro na decodificação do JSON.") ∧
  ∃ kvs, ErrorResult "Erro na decodificação do JSON." = VDict kvs ∧ export_guard kvs = false.
Proof.
  intros r.
  assert (r.1 = Ret (ErrorResult "Erro na decodificação do JSON.")) as Hr
    by (vm_compute; reflexivity).
  split; [exact Hr|].
  destruct (obter_dados_returns (sempre 200 "<html>") _ cnpj_exemplo (mundo []) _ Hr)
    as [(Hne & _)|[(_ & _ & _ & Hk)|(_ & Hl)]];
    [by destruct Hne | exact Hk | discriminate Hl].
Defined.

(** ** The module body *)

Lemma main_run servidor json_loads excel w :
  main servidor json_loads excel w
  = match obter_dados_empresa_por_cnpj servidor json_loads cnpj_exemplo w with
    | (Ret (VDict kvs), w1) =>
        salvar_dados_empresa_excel excel (fresh (dom (store w1))) nome_arquivo_padrao
          (with_object (fresh (dom (store w1))) kvs w1)
    | (Ret _, w1) => (Raise AttributeError, w1)
    | (Raise e, w1) => (Raise e, w1)
    end.
Proof.
  unfold main, bind.
  destruct (obter_dados_empresa_por_cnpj _ _ _ w) as [[v|e] w1]; [|done].
  by destruct v.
Qed.

(** The record the fetcher returned is skipped by the exporter. *)
Lemma main_skips servidor json_loads excel w kvs w1 :
  obter_dados_empresa_por_cnpj servidor json_loads cnpj_exemplo w = (Ret (VDict kvs), w1) →
  export_guard kvs = false →
  main servidor json_loads excel w
  = (Ret tt, after [aviso_ignorado kvs] (with_object (fresh (dom (store w1))) kvs w1)).
Proof.
  intros Hf Hg. rewrite main_run, Hf.
  rewrite (salvar_dados_empresa_excel_run _ _ _ kvs) by apply store_with_object.
  by rewrite Hg.
Qed.

(** X10. A run in which the server answers with a status other than 200
    ends normally: no file is created or replaced, and the last console
    line is the skip notice with the status in it. The only new object is
    the error record. *)
Theorem main_non_200 servidor json_loads excel w :
  let resposta := servidor "www.receitaws.com.br" "GET" ("/v1/cnpj/" ++ cnpj_exemplo) in
  status resposta ≠ 200%Z →
  main servidor json_loads excel w
  = (Ret tt,
     {| store := <[fresh (dom (store w)) :=
                    [("status", VStr "ERROR");
                     ("message", VStr ("Resposta HTTP com status " ++ pretty (status resposta)))]]>
                 (store w);
        files := files w;
        trace := (trace w ++ chamadas_iniciais cnpj_exemplo (status resposta)
                  ++ [EPrint ("Não há dados válidos para salvar. Mensagem de erro: "
                              ++ "Resposta HTTP com status " ++ pretty (status resposta))])%list |}).
Proof.
  intros resposta Hst.
  rewrite (main_skips servidor json_loads excel w _ _
             (obter_dados_status_erro servidor json_loads cnpj_exemplo w Hst))
    by reflexivity.
  fold resposta. unfold after, with_object, set_store. simpl.
  by rewrite <- app_assoc.
Qed.

Lemma main_non_200_witness :
  let w := {| store := ∅; files := {[ nome_arquivo_padrao := [[VStr "antigo"]] ]}; trace := [] |} in
  status (sempre 429 "Too Many Requests" "www.receitaws.com.br" "GET"
            ("/v1/cnpj/" ++ cnpj_exemplo)) ≠ 200%Z ∧
  (main (sempre 429 "Too Many Requests") (λ _, Ret VNone) escritor_ideal w).1 = Ret tt ∧
  files (main (sempre 429 "Too Many Requests") (λ _, Ret VNone) escritor_ideal w).2
  = {[ nome_arquivo_padrao := [[VStr "antigo"]] ]}.
Proof.
  intros w. split; [discriminate|].
  rewrite (main_non_200 (sempre 429 "Too Many Requests") (λ _, Ret VNone) escritor_ideal w)
    by discriminate.
  split; reflexivity.
Defined.

(** X11. A run in which the body of a 200 answer is not a JSON document
    ends normally as well: no file is touched and the skip notice carries
    the fixed message, after the console line with the parser's
    diagnostic. *)
Theorem main_malformed_json servidor json_loads excel msg w :
  let resposta := servidor "www.receitaws.com.br" "GET" ("/v1/cnpj/" ++ cnpj_exemplo) in
  status resposta = 200%Z →
  utf8_valid (body resposta) = true →
  json_loads (body resposta) = Raise (JSONDecodeError msg) →
  main servidor json_loads excel w
  = (Ret tt,
     {| store := <[fresh (dom (store w)) :=
                    [("status", VStr "ERROR");
                     ("message", VStr "Erro na decodificação do JSON.")]]> (store w);
        files := files w;
        trace := (trace w ++ chamadas_iniciais cnpj_exemplo 200
                  ++ [ERead; EClose; EJsonLoads (body resposta);
                      EPrint ("Erro na decodificação do JSON: " ++ msg);
                      EPrint ("Não há dados válidos para salvar. Mensagem de erro: "
                              ++ "Erro na decodificação do JSON.")])%list |}).
Proof.
  intros resposta Hst Hutf Hjs.
  rewrite (main_skips servidor json_loads excel w _ _
             (obter_dados_malformed_json servidor json_loads cnpj_exemplo msg w Hst Hutf Hjs))
    by reflexivity.
  fold resposta. unfold after, with_object, set_store. simpl.
  by rewrite <- !app_assoc.
Qed.

Lemma main_malformed_json_witness :
  let w := {| store := ∅; files := ∅; trace := [] |} in
  let r := main (sempre 200 "<html>Too many requests</html>")
             (λ _, Raise (JSONDecodeError "Expecting value: line 1 column 1 (char 0)"))
             escritor_ideal w in
  r.1 = Ret tt ∧ files r.2 = ∅ ∧
  last (trace r.2)
  = Some (EPrint "Não há dados válidos para salvar. Mensagem de erro: Erro na decodificação do JSON.").
Proof.
  intros w r. unfold r.
  rewrite (main_malformed_json (sempre 200 "<html>Too many requests</html>") _
             escritor_ideal
             "Expecting value: line 1 column 1 (char 0)" w eq_refl eq_refl eq_refl).
  repeat split; vm_compute; reflexivity.
Defined.

(** X12. The service can answer 200 with a JSON object that is itself an
    error report ([status] "ERROR"), or with an empty object: the run
    then ends normally, no file is touched, and the skip notice reports
    that object's [message] ([None] when it has none). *)
Theorem main_upstream_error servidor json_loads excel kvs w :
  let resposta := servidor "www.receitaws.com.br" "GET" ("/v1/cnpj/" ++ cnpj_exemplo) in
  status resposta = 200%Z →
  utf8_valid (body resposta) = true →
  json_loads (body resposta) = Ret (VDict kvs) →
  kvs = [] ∨ Dict.lookup "status" kvs = Some (VStr "ERROR") →
  ∃ calls,
    main servidor json_loads excel w
    = (Ret tt,
       {| store := <[fresh (dom (store w)) := kvs]> (store w);
          files := files w;
          trace := (trace w ++ calls
                    ++ [EPrint ("Não há dados válidos para salvar. Mensagem de erro: "
                                ++ py_str (Dict.get "message" VNone kvs))])%list |}).
Proof.
  intros resposta Hst Hutf Hjs Hskip. apply export_guard_false in Hskip.
  rewrite (main_skips servidor json_loads excel w _ _
             (obter_dados_parsed servidor json_loads cnpj_exemplo _ w Hst Hutf Hjs))
    by done.
  exists (chamadas_iniciais cnpj_exemplo 200
          ++ [ERead; EClose; EJsonLoads (body resposta);
              EPrint ("Empresa decodificada: " ++ py_str (VDict kvs))])%list.
  fold resposta. unfold after, with_object, set_store, aviso_ignorado. simpl.
  by rewrite <- !app_assoc.
Qed.

Lemma main_upstream_error_witness :
  let kvs := [("status", VStr "ERROR"); ("message", VStr "CNPJ inválido")] in
  let w := {| store := ∅; files := ∅; trace := [] |} in
  let r := main (sempre 200 "{...}") (λ _, Ret (VDict kvs)) escritor_ideal w in
  r.1 = Ret tt ∧ files r.2 = ∅ ∧
  last (trace r.2)
  = Some (EPrint "Não há dados válidos para salvar. Mensagem de erro: CNPJ inválido").
Proof.
  intros kvs w r. unfold r.
  destruct (main_upstream_error (sempre 200 "{...}") (λ _, Ret (VDict kvs)) escritor_ideal kvs w
              eq_refl eq_refl eq_refl) as [calls ->].
  - right. reflexivity.
  - split; [reflexivity|]. split; [reflexivity|].
    simpl. rewrite last_snoc. reflexivity.
Defined.

(** X14. A run in which the service answers 200 with a non-empty JSON
    object that is not an error report, and whose three joined fields (if
    present) are well-formed, ends as the call of [to_excel] ends. The
    table handed to it, for "dados_empresa.xlsx" and without index, has
    the keys of the object as the service sent them, in that order, and
    the values the normaliser left. When the call returns, the run ends
    normally and the confirmation is the last console line; when it
    raises, the run ends on that exception. Either way the file is what
    the spreadsheet library left, and the only new object is the
    normalised record. *)
Theorem main_writes_sheet servidor json_loads excel kvs w :
  let resposta := servidor "www.receitaws.com.br" "GET" ("/v1/cnpj/" ++ cnpj_exemplo) in
  status resposta = 200%Z →
  utf8_valid (body resposta) = true →
  json_loads (body resposta) = Ret (VDict kvs) →
  kvs ≠ [] →
  Dict.lookup "status" kvs ≠ Some (VStr "ERROR") →
  block_ok "atividade_principal" join_text kvs = true →
  block_ok "atividades_secundarias" join_text kvs = true →
  block_ok "qsa" join_qsa kvs = true →
  ∃ d1,
    tratar_dados_aninhados 1 (mundo kvs) = (Ret 1%positive, mundo d1) ∧
    let df := {| columns := Dict.keys kvs; rows := [Dict.values d1] |} in
    let r := main servidor json_loads excel w in
    r.1 = (excel df nome_arquivo_padrao false).1 ∧
    files r.2 = apply_effect nome_arquivo_padrao (excel df nome_arquivo_padrao false).2 (files w) ∧
    store r.2 = <[fresh (dom (store w)) := d1]> (store w) ∧
    (r.1 = Ret tt → last (trace r.2) = Some (aviso_salvo nome_arquivo_padrao)).
Proof.
  intros resposta Hst Hutf Hjs Hne Hstatus H1 H2 H3.
  pose proof (normalise_ok kvs H1 H2 H3) as Hok.
  exists (normalise kvs).2. split.
  { rewrite (tratar_dados_aninhados_run 1 kvs (mundo kvs)) by reflexivity.
    rewrite Hok. unfold mundo, with_object, set_store. simpl.
    by rewrite insert_singleton_eq. }
  simpl. rewrite main_run,
    (obter_dados_parsed servidor json_loads cnpj_exemplo _ w Hst Hutf Hjs).
  rewrite (salvar_dados_empresa_excel_run _ _ _ kvs) by apply store_with_object.
  rewrite (proj2 (export_guard_true kvs)) by done. rewrite Hok.
  unfold escrita, DataFrame.
  rewrite (rewrite_fields_keys known_fields kvs : Dict.keys (normalise kvs).2 = Dict.keys kvs).
  destruct (excel _ _ _) as [[[]|e] eff]; simpl;
    (split; [done|]; split; [done|]; split; [by rewrite insert_insert_eq|]).
  - intros _. apply last_snoc.
  - done.
Qed.

(** X14 on the spec's end-to-end scenario, with a library that writes the
    table as it is. *)
Lemma main_writes_sheet_witness :
  let kvs := [("cnpj", VStr "06947283000160");
              ("atividade_principal", VList [VDict [("text", VStr "Consultoria")]]);
              ("qsa", VList [VDict [("nome", VStr "Maria"); ("qual", VStr "Socia")]])] in
  let w := {| store := ∅; files := ∅; trace := [] |} in
  let r := main (sempre 200 "{...}") (λ _, Ret (VDict kvs)) escritor_ideal w in
  r.1 = Ret tt ∧
  files r.2 !! nome_arquivo_padrao
  = Some [[VStr "cnpj"; VStr "atividade_principal"; VStr "qsa"];
          [VStr "06947283000160"; VStr "Consultoria"; VStr "Maria (Socia)"]].
Proof.
  intros kvs w r. unfold r.
  destruct (main_writes_sheet (sempre 200 "{...}") (λ _, Ret (VDict kvs)) escritor_ideal kvs w
              eq_refl eq_refl eq_refl ltac:(discriminate) ltac:(discriminate)
              eq_refl eq_refl eq_refl) as (d1 & Hn & H1 & H2 & _).
  assert (d1 = [("cnpj", VStr "06947283000160");
                ("atividade_principal", VStr "Consultoria");
                ("qsa", VStr "Maria (Socia)")]) as ->.
  { vm_compute in Hn. injection Hn as Hn.
    assert (({[1%positive := d1]} : gmap loc dict) !! 1%positive
            = Some [("cnpj", VStr "06947283000160");
                    ("atividade_principal", VStr "Consultoria");
                    ("qsa", VStr "Maria (Socia)")]) as Hl
      by (unfold singletonM, map_singleton; rewrite <- Hn; vm_compute; reflexivity).
    rewrite lookup_singleton_eq in Hl. congruence. }
  split; [exact H1|]. rewrite H2. reflexivity.
Defined.
